(** * Focus Tracker: a shallow embedding of [focus.py] and its properties

    The development follows the layout of the program:

    - [Py]: the Python builtins the program relies on ([float], [int],
      string methods) as an interface, and the calendar arithmetic of
      [datetime];
    - [Store]: rows, files and the world the program runs in (file
      system, clock, standard input), with a state-and-exception monad;
    - [Focus]: the functions of [focus.py], one definition per function,
      in the order of the source;
    - [Decimal]: a reference instance of the builtins, to run examples;
    - [Spec] and [Samples]: the vocabulary of the statements and the
      sample worlds;
    - [Props]: the properties, grouped by the function they are about;
    - [Checks]: the properties on the sample worlds.

    Modelling level.  A CSV file is the list of its records.  A day log is
    read with [csv.DictReader] and written with the header
    [Task, Start Time, End Time, Duration (minutes), Status]; a day-log file
    is therefore represented by the list of its data rows, each a [Row]
    with those five columns, and the header line is implicit in a file that
    exists.  The statistics file is read with [csv.reader], so it is kept as
    raw records, header included.  Every call of [datetime.datetime.now()]
    is a reading of the clock of its own; statements about "today" assume
    that the readings involved fall on one date ([Spec.on_day]).  Terminal
    output and desktop notifications are not part of the state. *)

From Stdlib Require Import ZArith QArith Qabs Ascii String.
From stdpp Require Import base tactics option strings list gmap sorting pretty.

Local Close Scope Q_scope.
Local Open Scope string_scope.
Local Open Scope list_scope.

(** ** Python builtins *)

Module Py.

Local Open Scope Z_scope.

(** Exceptions that the modelled code can raise. *)
Inductive exn :=
  | ValueError
  | IndexError
  | TypeError
  | EOFError
  | FileNotFoundError
  | KeyboardInterrupt.

#[global] Instance exn_eq_dec : EqDecision exn.
Proof. solve_decision. Defined.

(** [float], [int] and the string methods of Python.  The program only
    parses, adds, divides and formats floats, so the interface lists just
    those operations; [None] stands for [ValueError]. *)
Class Builtins := {
  float : Type;
  float_of_str : string → option float;     (* float(s) *)
  int_of_str : string → option Z;           (* int(s) *)
  float_of_int : Z → float;
  float_add : float → float → float;
  float_div : float → float → float;
  float_mul : float → float → float;
  float_bool : float → bool;                (* truth value: x != 0 *)
  format_f : nat → float → string;          (* f"{x:.Nf}" *)
  float_ge_int : float → Z → bool;          (* x >= n *)
  total_seconds : Z → float;                (* timedelta(microseconds=n).total_seconds() *)
  str_strip : string → string;
  str_upper : string → string;
  str_lower : string → string;
}.

(** [str(n)] and [f"{n:02d}"] for integers. *)
Definition str (n : Z) : string := pretty n.

Definition pad (width : nat) (n : Z) : string :=
  let s := pretty (Z.abs n) in
  let sign := if n <? 0 then "-" else "" in
  let body := (String.length sign + String.length s)%nat in
  sign +:+ String.concat "" (replicate (width - body)%nat "0") +:+ s.

(** *** datetime

    A naive [datetime] is the number of microseconds since
    0001-01-01T00:00:00, a [timedelta] a number of microseconds, a [date] its
    proleptic Gregorian ordinal.  The range checks of Python (years 1 to
    9999) are not modelled. *)
Definition datetime := Z.
Definition timedelta := Z.

Definition US_PER_SECOND : Z := 1000000.
Definition US_PER_DAY : Z := 86400 * US_PER_SECOND.

Record date := Date { year : Z; month : Z; day : Z }.

#[global] Instance date_eq_dec : EqDecision date.
Proof. solve_decision. Defined.

Definition DI400Y : Z := 146097.
Definition DI100Y : Z := 36524.
Definition DI4Y : Z := 1461.

Definition DAYS_IN_MONTH (m : Z) : Z :=
  nth (Z.to_nat m) [0; 31; 28; 31; 30; 31; 30; 31; 31; 30; 31; 30; 31] 0.

Definition DAYS_BEFORE_MONTH (m : Z) : Z :=
  nth (Z.to_nat m) [0; 0; 31; 59; 90; 120; 151; 181; 212; 243; 273; 304; 334] 0.

(** [datetime._ord2ymd]: ordinal to (year, month, day). *)
Definition ord2ymd (n : Z) : date :=
  let n := n - 1 in
  let n400 := n / DI400Y in
  let n := n mod DI400Y in
  let y := n400 * 400 + 1 in
  let n100 := n / DI100Y in
  let n := n mod DI100Y in
  let n4 := n / DI4Y in
  let n := n mod DI4Y in
  let n1 := n / 365 in
  let n := n mod 365 in
  let y := y + n100 * 100 + n4 * 4 + n1 in
  if (n1 =? 4) || (n100 =? 4) then Date (y - 1) 12 31
  else
    let leapyear := (n1 =? 3) && (negb (n4 =? 24) || (n100 =? 3)) in
    let m := Z.shiftr (n + 50) 5 in
    let preceding :=
      DAYS_BEFORE_MONTH m + (if (2 <? m) && leapyear then 1 else 0) in
    if preceding >? n then
      let m' := m - 1 in
      let preceding' :=
        preceding
        - (DAYS_IN_MONTH m' + (if (m' =? 2) && leapyear then 1 else 0)) in
      Date y m' (n - preceding' + 1)
    else Date y m (n - preceding + 1).

(** [dt.toordinal()] and [dt.date()]. *)
Definition toordinal (t : datetime) : Z := t / US_PER_DAY + 1.
Definition date_of (t : datetime) : date := ord2ymd (toordinal t).

(** [d - datetime.timedelta(days=1)]. *)
Definition day_before (t : datetime) : date := ord2ymd (toordinal t - 1).

(** [strftime("%H:%M:%S")] and [strftime("%Y-%m-%d")]. *)
Definition strftime_HMS (t : datetime) : string :=
  let s := (t mod US_PER_DAY) / US_PER_SECOND in
  pad 2 (s / 3600) +:+ ":" +:+ pad 2 ((s / 60) mod 60) +:+ ":" +:+ pad 2 (s mod 60).

Definition strftime_Ymd (d : date) : string :=
  pad 4 (year d) +:+ "-" +:+ pad 2 (month d) +:+ "-" +:+ pad 2 (day d).

End Py.

(** ** Rows, files and the world *)

Module Store.
Import Py.

(** One record of a day log, as [csv.DictReader] yields it. *)
Record Row := {
  Task : string;
  Start_Time : string;
  End_Time : string;
  Duration : string;        (* column "Duration (minutes)" *)
  Status : string;
}.

#[global] Instance Row_eq_dec : EqDecision Row.
Proof. solve_decision. Defined.

(** [row["Status"] = s] on a dictionary: the other columns are kept. *)
Definition set_Status (s : string) (row : Row) : Row :=
  {| Task := Task row; Start_Time := Start_Time row; End_Time := End_Time row;
     Duration := Duration row; Status := s |}.

Definition DAY_HEADER : list string :=
  ["Task"; "Start Time"; "End Time"; "Duration (minutes)"; "Status"].

Definition STATS_HEADER : list string :=
  ["Date"; "Tasks Completed"; "Completed Time (min)";
   "Avg Completed Time (min)"; "Tasks Abandoned"; "Abandoned Time (min)";
   "Avg Abandoned Time (min)"; "Completion Rate (%)"].

(** The records of a day-log file: header, then one record per row. *)
Definition record_of (row : Row) : list string :=
  [Task row; Start_Time row; End_Time row; Duration row; Status row].

Definition records (rows : list Row) : list (list string) :=
  DAY_HEADER :: map record_of rows.

(** [config.json]; only the key the modelled code reads is kept. *)
Record Config := { reminder_interval : Z }.

(** A file under [DATA_DIR]: its directory and its name. *)
Definition path : Type := string * string.

(** The files of the program: day logs and their backups by path, the
    statistics file, the configuration file. *)
Record FS := {
  logs : gmap path (list Row);
  statistics : option (list (list string));
  config : option Config;
}.

Definition set_logs (f : gmap path (list Row) → gmap path (list Row)) (s : FS) : FS :=
  {| logs := f (logs s); statistics := statistics s; config := config s |}.

Definition set_statistics (recs : list (list string)) (s : FS) : FS :=
  {| logs := logs s; statistics := Some recs; config := config s |}.

Definition set_config (c : Config) (s : FS) : FS :=
  {| logs := logs s; statistics := statistics s; config := Some c |}.

(** The world: files, the wall clock as the sequence of the values that
    successive calls of [datetime.datetime.now()] return, the number of
    calls made so far, and the lines still to be read from standard input. *)
Record World := {
  fs : FS;
  clock : nat → datetime;
  ticks : nat;
  stdin : list string;
}.

Definition with_fs (f : FS → FS) (w : World) : World :=
  {| fs := f (fs w); clock := clock w; ticks := ticks w; stdin := stdin w |}.

Definition with_stdin (l : list string) (w : World) : World :=
  {| fs := fs w; clock := clock w; ticks := ticks w; stdin := l |}.

Definition tick (w : World) : World :=
  {| fs := fs w; clock := clock w; ticks := S (ticks w); stdin := stdin w |}.

(** *** The monad: state over [World], with Python exceptions *)

Inductive result (A : Type) :=
  | Ok (a : A)
  | Raise (e : exn).
Arguments Ok {A} a.
Arguments Raise {A} e.

Definition M (A : Type) : Type := World → result A * World.

Definition ret {A} (a : A) : M A := λ w, (Ok a, w).

Definition bind {A B} (m : M A) (f : A → M B) : M B := λ w,
  match m w with
  | (Ok a, w') => f a w'
  | (Raise e, w') => (Raise e, w')
  end.

Declare Scope M_scope.
Delimit Scope M_scope with M.
Bind Scope M_scope with M.
Notation "x ← y ; z" := (bind y (λ x, z))
  (at level 20, y at level 100, z at level 200, only parsing) : M_scope.
Notation "x ;; z" := (bind x (λ _, z))
  (at level 100, z at level 200, only parsing, right associativity) : M_scope.
#[local] Open Scope M_scope.

Definition raise {A} (e : exn) : M A := λ w, (Raise e, w).

(** [try: m except Exception: h]: everything but [KeyboardInterrupt]. *)
Definition try_except_Exception {A} (m : M A) (h : M A) : M A := λ w,
  match m w with
  | (Raise KeyboardInterrupt, w') => (Raise KeyboardInterrupt, w')
  | (Raise _, w') => h w'
  | r => r
  end.

(** [datetime.datetime.now()]. *)
Definition now : M datetime := λ w, (Ok (clock w (ticks w)), tick w).

(** [input(prompt)]: the next line, [EOFError] at end of input. *)
Definition input : M string := λ w,
  match stdin w with
  | [] => (Raise EOFError, w)
  | line :: rest => (Ok line, with_stdin rest w)
  end.

Definition get_fs : M FS := λ w, (Ok (fs w), w).
Definition modify_fs (f : FS → FS) : M unit := λ w, (Ok tt, with_fs f w).

(** [p.exists()], reading and writing a day-log file. *)
Definition exists_ (p : path) : M bool :=
  s ← get_fs; ret (bool_decide (is_Some (logs s !! p))).

Definition read_rows (p : path) : M (list Row) :=
  s ← get_fs;
  match logs s !! p with
  | Some rows => ret rows
  | None => raise FileNotFoundError
  end.

Definition write_rows (p : path) (rows : list Row) : M unit :=
  modify_fs (set_logs <[p := rows]>).

(** [open(p, 'a')] followed by [writerow]: the header first when the file
    is new (the header is implicit in the representation). *)
Definition append_row (p : path) (row : Row) : M unit :=
  modify_fs (set_logs (λ m,
    match m !! p with
    | None => <[p := [row]]> m
    | Some rows => <[p := rows ++ [row]]> m
    end)).

(** [p.unlink()]. *)
Definition unlink (p : path) : M unit := modify_fs (set_logs (delete p)).

End Store.

(** ** The program *)

Module Focus.
Import Py Store.
#[local] Open Scope M_scope.

(** *** Paths *)

(** [name.endswith(suffix)]; the glob pattern [*.csv] is [endswith ".csv"]. *)
Fixpoint endswith (suffix s : string) : bool :=
  (s =? suffix)%string ||
  match s with
  | "" => false
  | String _ s' => endswith suffix s'
  end.

(** Splits a name at its last dot: [(name[:i], name[i:])] for
    [i = name.rfind('.')]. *)
Fixpoint rsplit_dot (name : string) : option (string * string) :=
  match name with
  | "" => None
  | String a rest =>
      match rsplit_dot rest with
      | Some (stem, ext) => Some (String a stem, ext)
      | None => if (a =? ".")%char then Some ("", name) else None
      end
  end.

(** [PurePath.with_suffix]: the last suffix is replaced; a name without
    one (no dot, or only a leading or a trailing dot) gets it added. *)
Definition with_suffix (suffix name : string) : string :=
  match rsplit_dot name with
  | Some (stem, ext) =>
      if (0 <? String.length stem)%nat && (1 <? String.length ext)%nat
      then stem +:+ suffix
      else name +:+ suffix
  | None => name +:+ suffix
  end.

(** The month directory [f"{year}_{month:02d}"] and the day log
    [f"tasks_{year}_{month:02d}_{day:02d}.csv"] of a date. *)
Definition month_dir_of (d : date) : string :=
  str (year d) +:+ "_" +:+ pad 2 (month d).

Definition day_file_of (d : date) : string :=
  "tasks_" +:+ str (year d) +:+ "_" +:+ pad 2 (month d) +:+ "_"
  +:+ pad 2 (day d) +:+ ".csv".

(** [get_month_dir]; creating the directory leaves no trace in the state. *)
Definition get_month_dir : M string :=
  today ← now;
  ret (month_dir_of (date_of today)).

Definition get_day_log_file : M path :=
  today ← now;
  month_dir ← get_month_dir;
  ret (month_dir, day_file_of (date_of today)).

Definition initialize_day_log : M unit :=
  log_file ← get_day_log_file;
  file_exists ← exists_ log_file;
  if negb file_exists then write_rows log_file [] else ret tt.

(** [DEFAULT_CONFIG], with the key the modelled code reads. *)
Definition DEFAULT_CONFIG : Config := {| reminder_interval := 30 |}.

(** [setup]: the configuration file and the statistics file are created
    when they do not exist; the directories leave no trace in the state. *)
Definition setup : M unit :=
  s ← get_fs;
  (if bool_decide (config s = None) then modify_fs (set_config DEFAULT_CONFIG)
   else ret tt);;
  s ← get_fs;
  if bool_decide (statistics s = None) then modify_fs (set_statistics [STATS_HEADER])
  else ret tt.

Section WithBuiltins.
Context `{Builtins}.

(** *** Log store *)

(** The loop body of [update_task_status]. *)
Definition update_row (task_name new_status : string) (row : Row) : Row :=
  if (Task row =? task_name)%string
     && bool_decide (Status row ∈ ["Abandoned"; "In Progress"])
  then set_Status new_status row
  else row.

Definition update_task_status (task_name new_status : string) : M bool :=
  log_file ← get_day_log_file;
  file_exists ← exists_ log_file;
  if negb file_exists then ret false
  else
    rows ← read_rows log_file;
    let rows := map (update_row task_name new_status) rows in
    write_rows log_file rows;;
    ret true.

(** The record that [log_task] writes. *)
Definition new_row (task : string) (start_time : datetime)
    (end_time : option datetime) (status : string) : Row :=
  let duration :=
    (λ e, float_div (total_seconds (e - start_time)%Z) (float_of_int 60))
      <$> end_time in
  let start_str := strftime_HMS start_time in
  let end_str := from_option strftime_HMS "" end_time in
  {| Task := task;
     Start_Time := start_str;
     End_Time := end_str;
     Duration :=
       match duration with
       | Some d => if float_bool d then format_f 2 d else ""
       | None => ""
       end;
     Status := status |}.

Definition log_task (task : string) (start_time : datetime)
    (end_time : option datetime) (status : string) : M unit :=
  log_file ← get_day_log_file;
  file_exists ← exists_ log_file;
  updating_abandoned ←
    (if (status =? "In Progress")%string && file_exists then
       rows ← read_rows log_file;
       ret (existsb
               (λ row, (Task row =? task)%string
                       && (Status row =? "Abandoned")%string) rows)
     else ret false);
  if updating_abandoned then
    update_task_status task "In Progress (Resumed)";;
    ret tt
  else
    append_row log_file (new_row task start_time end_time status).

(** [month_dir.glob("*.csv")] and [sorted(csv_files, reverse=True)]: the
    files of one directory compare by name. *)
Definition glob_csv (month_dir : string) (m : gmap path (list Row))
    : list (path * list Row) :=
  filter (λ f : path * list Row,
            f.1.1 = month_dir ∧ endswith ".csv" f.1.2 = true)
         (map_to_list m).

Definition name_ge (f g : path * list Row) : Prop := String.le g.1.2 f.1.2.

#[global] Instance name_ge_dec : RelDecision name_ge.
Proof. intros f g. unfold name_ge. apply _. Defined.

Definition sorted_reverse (files : list (path * list Row))
    : list (path * list Row) :=
  merge_sort name_ge files.

(** The inner loop of [get_abandoned_tasks], for one row. *)
Definition add_abandoned (abandoned_tasks : list Row) (row : Row) : list Row :=
  if (Status row =? "Abandoned")%string then
    if existsb (λ t, (Task t =? Task row)%string) abandoned_tasks
    then abandoned_tasks
    else abandoned_tasks ++ [row]
  else abandoned_tasks.

(** The outer loop, with its [break]. *)
Fixpoint scan_files (csv_files : list (path * list Row))
    (abandoned_tasks : list Row) : list Row :=
  match csv_files with
  | [] => abandoned_tasks
  | csv_file :: rest =>
      let abandoned_tasks := fold_left add_abandoned csv_file.2 abandoned_tasks in
      if (10 <=? length abandoned_tasks)%nat then abandoned_tasks
      else scan_files rest abandoned_tasks
  end.

Definition get_abandoned_tasks : M (list Row) :=
  month_dir ← get_month_dir;
  s ← get_fs;
  let csv_files := glob_csv month_dir (logs s) in
  ret (take 10 (scan_files (sorted_reverse csv_files) [])).

(** *** Statistics rollup *)

(** The accumulators of the row loops of [update_statistics] and
    [get_today_summary]. *)
Record Tally := {
  completed_tasks : list Row;
  abandoned_tasks : list Row;
  in_progress_tasks : list Row;
  total_completed : float;
  total_abandoned : float;
}.

Definition empty_tally : Tally :=
  {| completed_tasks := []; abandoned_tasks := []; in_progress_tasks := [];
     total_completed := float_of_int 0; total_abandoned := float_of_int 0 |}.

(** [total += float(s)] under [try ... except ValueError: pass]. *)
Definition add_duration (total : float) (s : string) : float :=
  match float_of_str s with
  | Some x => float_add total x
  | None => total
  end.

(** One iteration of the row loop of [get_today_summary]; the loop of
    [update_statistics] is the same without the last branch. *)
Definition classify_row (include_in_progress : bool) (t : Tally) (row : Row)
    : Tally :=
  if (Status row =? "Completed")%string && negb (Duration row =? "")%string then
    {| completed_tasks := completed_tasks t ++ [row];
       abandoned_tasks := abandoned_tasks t;
       in_progress_tasks := in_progress_tasks t;
       total_completed := add_duration (total_completed t) (Duration row);
       total_abandoned := total_abandoned t |}
  else if (Status row =? "Abandoned")%string && negb (Duration row =? "")%string then
    {| completed_tasks := completed_tasks t;
       abandoned_tasks := abandoned_tasks t ++ [row];
       in_progress_tasks := in_progress_tasks t;
       total_completed := total_completed t;
       total_abandoned := add_duration (total_abandoned t) (Duration row) |}
  else if include_in_progress && (Status row =? "In Progress")%string then
    {| completed_tasks := completed_tasks t;
       abandoned_tasks := abandoned_tasks t;
       in_progress_tasks := in_progress_tasks t ++ [row];
       total_completed := total_completed t;
       total_abandoned := total_abandoned t |}
  else t.

Definition tally_row : Tally → Row → Tally := classify_row false.

(** [a / n if n > 0 else 0]. *)
Definition average (total : float) (n : nat) : float :=
  if (0 <? n)%nat then float_div total (float_of_int (Z.of_nat n))
  else float_of_int 0.

(** [c / (c + a) * 100 if (c + a) > 0 else 0]. *)
Definition completion_rate (c a : nat) : float :=
  if (0 <? c + a)%nat then
    float_mul (float_div (float_of_int (Z.of_nat c))
                         (float_of_int (Z.of_nat (c + a))))
              (float_of_int 100)
  else float_of_int 0.

(** The statistics record of a day, as [csv.writer] writes it. *)
Definition stats_row (day_str : string) (t : Tally) : list string :=
  let tasks_completed := length (completed_tasks t) in
  let tasks_abandoned := length (abandoned_tasks t) in
  [ day_str;
    str (Z.of_nat tasks_completed);
    format_f 2 (total_completed t);
    format_f 2 (average (total_completed t) tasks_completed);
    str (Z.of_nat tasks_abandoned);
    format_f 2 (total_abandoned t);
    format_f 2 (average (total_abandoned t) tasks_abandoned);
    format_f 1 (completion_rate tasks_completed tasks_abandoned) ].

(** The update loop over [existing_stats]: the first record whose first
    field is [day_str] is replaced; [row[0]] on an empty record raises
    [IndexError].  The boolean is [day_updated]. *)
Fixpoint replace_day (day_str : string) (new : list string)
    (existing_stats : list (list string))
    : result (list (list string) * bool) :=
  match existing_stats with
  | [] => Ok ([], false)
  | row :: rest =>
      match row with
      | [] => Raise IndexError
      | key :: _ =>
          if (key =? day_str)%string then Ok (new :: rest, true)
          else
            match replace_day day_str new rest with
            | Ok (rest', day_updated) => Ok (row :: rest', day_updated)
            | Raise e => Raise e
            end
      end
  end.

Definition upsert_day (day_str : string) (new : list string)
    (existing_stats : list (list string)) : result (list (list string)) :=
  match replace_day day_str new existing_stats with
  | Ok (stats, day_updated) =>
      Ok (if day_updated then stats else stats ++ [new])
  | Raise e => Raise e
  end.

(** The body of the loop [for day in [yesterday, today]]. *)
Definition update_day (d : date) : M unit :=
  s ← get_fs;
  match logs s !! (month_dir_of d, day_file_of d) with
  | None => ret tt
  | Some rows =>
      let t := fold_left tally_row rows empty_tally in
      if bool_decide (completed_tasks t = []) && bool_decide (abandoned_tasks t = [])
      then ret tt
      else
        let day_str := strftime_Ymd d in
        let existing_stats :=
          match statistics s with
          | Some recs => tail recs
          | None => []
          end in
        match upsert_day day_str (stats_row day_str t) existing_stats with
        | Raise e => raise e
        | Ok stats => modify_fs (set_statistics (STATS_HEADER :: stats))
        end
  end.

Definition update_statistics : M unit :=
  t ← now;
  let today := date_of t in
  let yesterday := day_before t in
  update_day yesterday;;
  update_day today.

(** [clear_today_tasks]. *)
Definition clear_today_tasks : M unit :=
  log_file ← get_day_log_file;
  file_exists ← exists_ log_file;
  (if file_exists then
     let backup_file := (log_file.1, with_suffix ".backup" log_file.2) in
     rows ← read_rows log_file;
     write_rows backup_file rows;;
     unlink log_file;;
     initialize_day_log
   else ret tt);;
  update_statistics.

(** *** Summary *)

Definition nl : string := String "010" "".

(** The numbered lines of the COMPLETED and ABANDONED sections;
    [float(task["Duration (minutes)"])] is not guarded here. *)
Fixpoint duration_lines (i : nat) (tasks : list Row) : result string :=
  match tasks with
  | [] => Ok ""
  | task :: rest =>
      match float_of_str (Duration task) with
      | None => Raise ValueError
      | Some duration =>
          match duration_lines (S i) rest with
          | Ok lines =>
              Ok (str (Z.of_nat i) +:+ ". " +:+ Task task +:+ " - "
                  +:+ format_f 1 duration +:+ " minutes" +:+ nl +:+ lines)
          | Raise e => Raise e
          end
      end
  end.

Fixpoint started_lines (i : nat) (tasks : list Row) : string :=
  match tasks with
  | [] => ""
  | task :: rest =>
      str (Z.of_nat i) +:+ ". " +:+ Task task +:+ " - started at "
      +:+ Start_Time task +:+ nl +:+ started_lines (S i) rest
  end.

Definition summary_of (include_in_progress : bool) (rows : list Row)
    : result string :=
  let t := fold_left (classify_row include_in_progress) rows empty_tally in
  if bool_decide (completed_tasks t = [])
     && bool_decide (abandoned_tasks t = [])
     && bool_decide (in_progress_tasks t = [])
  then Ok "No tasks recorded today."
  else
    let summary := nl +:+ "=== Today's Tasks ===" +:+ nl in
    match
      (if bool_decide (completed_tasks t = []) then
         Ok (summary +:+ "No completed tasks yet." +:+ nl)
       else
         match duration_lines 1 (completed_tasks t) with
         | Ok lines =>
             Ok (summary +:+ "COMPLETED:" +:+ nl +:+ lines
                 +:+ nl +:+ "Completed: "
                 +:+ str (Z.of_nat (length (completed_tasks t)))
                 +:+ " tasks, " +:+ format_f 1 (total_completed t)
                 +:+ " minutes")
         | Raise e => Raise e
         end)
    with
    | Raise e => Raise e
    | Ok summary =>
        match
          (if bool_decide (abandoned_tasks t = []) then Ok summary
           else
             match duration_lines 1 (abandoned_tasks t) with
             | Ok lines =>
                 Ok (summary +:+ nl +:+ nl +:+ "ABANDONED:" +:+ nl +:+ lines
                     +:+ nl +:+ "Abandoned: "
                     +:+ str (Z.of_nat (length (abandoned_tasks t)))
                     +:+ " tasks, " +:+ format_f 1 (total_abandoned t)
                     +:+ " minutes")
             | Raise e => Raise e
             end)
        with
        | Raise e => Raise e
        | Ok summary =>
            let summary :=
              if include_in_progress
                 && negb (bool_decide (in_progress_tasks t = []))
              then summary +:+ nl +:+ nl +:+ "STARTED BUT NOT COMPLETED:" +:+ nl
                   +:+ started_lines 1 (in_progress_tasks t)
              else summary in
            let summary :=
              if negb (bool_decide (completed_tasks t = []))
                 || negb (bool_decide (abandoned_tasks t = []))
              then summary +:+ nl +:+ nl +:+ "Completion rate: "
                   +:+ format_f 1 (completion_rate
                                     (length (completed_tasks t))
                                     (length (abandoned_tasks t)))
                   +:+ "%"
              else summary in
            Ok summary
        end
    end.

Definition get_today_summary (include_in_progress : bool) : M string :=
  log_file ← get_day_log_file;
  file_exists ← exists_ log_file;
  if negb file_exists then ret "No tasks recorded today."
  else
    rows ← read_rows log_file;
    match summary_of include_in_progress rows with
    | Ok summary => ret summary
    | Raise e => raise e
    end.

(** *** Session *)

Definition load_config : M Config :=
  s ← get_fs;
  match config s with
  | Some c => ret c
  | None => raise FileNotFoundError
  end.

Definition save_config (c : Config) : M unit := modify_fs (set_config c).

Definition set_stdin (lines : list string) : M unit :=
  λ w, (Ok tt, with_stdin lines w).

(** [get_next_task].  The [while True] loop reads at least one line per
    iteration, so it is a recursion over the lines still on standard
    input: [lines] is [stdin] at the head of the loop, each [input()] takes
    the next line of it and raises [EOFError] when there is none. *)
Fixpoint get_next_task_from (lines : list string) : M string :=
  match lines with
  | [] => raise EOFError
  | line :: lines =>
      set_stdin lines;;
      let task := str_strip line in
      if (str_upper task =? "CLEAR")%string then
        match lines with
        | [] => raise EOFError
        | line :: lines =>
            set_stdin lines;;
            let confirm := str_lower (str_strip line) in
            (if (confirm =? "y")%string then clear_today_tasks else ret tt);;
            get_next_task_from lines
        end
      else if negb (task =? "")%string then ret task
      else
        abandoned_tasks ← get_abandoned_tasks;
        if bool_decide (abandoned_tasks = []) then get_next_task_from lines
        else
          match lines with
          | [] => raise EOFError
          | line :: lines =>
              set_stdin lines;;
              let selection := str_strip line in
              if (selection =? "")%string then get_next_task_from lines
              else
                match int_of_str selection with
                | None => get_next_task_from lines        (* ValueError *)
                | Some task_num =>
                    if (1 <=? task_num)%Z
                       && (task_num <=? Z.of_nat (length abandoned_tasks))%Z
                    then
                      match abandoned_tasks !! Z.to_nat (task_num - 1) with
                      | Some t => ret (Task t)
                      | None => raise IndexError
                      end
                    else get_next_task_from lines
                end
          end
  end.

Definition get_next_task : M string :=
  λ w, get_next_task_from (stdin w) w.

(** The variables that [handle_command] takes and returns. *)
Record Session := {
  current_task : string;
  task_start_time : datetime;
  paused_time : option datetime;
  is_paused : bool;
}.

Definition handle_command (cmd : string) (s : Session) : M Session :=
  if (cmd =? "p")%string then
    if is_paused s then
      t ← now;
      match paused_time s with
      | None => raise TypeError                (* datetime - None *)
      | Some paused =>
          let pause_duration := (t - paused)%Z in
          ret {| current_task := current_task s;
                 task_start_time := (task_start_time s + pause_duration)%Z;
                 paused_time := paused_time s;
                 is_paused := false |}
      end
    else
      t ← now;
      ret {| current_task := current_task s;
             task_start_time := task_start_time s;
             paused_time := Some t;
             is_paused := true |}
  else if (cmd =? "c")%string && negb (is_paused s) then
    end_time ← now;
    log_task (current_task s) (task_start_time s) (Some end_time) "Completed";;
    next ← get_next_task;
    start ← now;
    log_task next start None "In Progress";;
    ret {| current_task := next; task_start_time := start;
           paused_time := paused_time s; is_paused := is_paused s |}
  else if (cmd =? "x")%string && negb (is_paused s) then
    end_time ← now;
    log_task (current_task s) (task_start_time s) (Some end_time) "Abandoned";;
    next ← get_next_task;
    start ← now;
    log_task next start None "In Progress";;
    ret {| current_task := next; task_start_time := start;
           paused_time := paused_time s; is_paused := is_paused s |}
  else if (cmd =? "a")%string then
    abandoned_tasks ← get_abandoned_tasks;
    if bool_decide (abandoned_tasks = []) then ret s
    else
      line ← input;
      match int_of_str line with
      | None => ret s                               (* ValueError *)
      | Some task_num =>
          if (0 <? task_num)%Z
             && (task_num <=? Z.of_nat (length abandoned_tasks))%Z
          then
            (if negb (current_task s =? "")%string && negb (is_paused s) then
               end_time ← now;
               log_task (current_task s) (task_start_time s) (Some end_time)
                        "Abandoned"
             else ret tt);;
            match abandoned_tasks !! Z.to_nat (task_num - 1) with
            | None => raise IndexError
            | Some t =>
                start ← now;
                log_task (Task t) start None "In Progress";;
                ret {| current_task := Task t; task_start_time := start;
                       paused_time := paused_time s; is_paused := is_paused s |}
            end
          else ret s
      end
  else if (cmd =? "t")%string then
    config ← load_config;
    line ← input;
    match int_of_str line with
    | None => ret s                                 (* ValueError *)
    | Some new_interval =>
        if (new_interval <? 1)%Z then ret s
        else
          save_config {| reminder_interval := new_interval |};;
          ret s
    end
  else ret s.

(** The variables of the loop of [main]. *)
Record Loop := {
  session : Session;
  last_reminder_time : datetime;
}.

(** The [try] block of the loop, for a key [cmd]. *)
Definition process_command (cmd : string) (st : Loop) : M Loop :=
  let cmd := str_lower cmd in
  if (cmd =? "l")%string then
    get_today_summary true;;
    ret st
  else if (cmd =? "h")%string then ret st
  else if bool_decide (cmd ∈ ["p"; "c"; "t"; "x"; "a"]) then
    s ← handle_command cmd (session st);
    t ← now;
    ret {| session := s; last_reminder_time := t |}
  else if (cmd =? "q")%string then raise KeyboardInterrupt
  else if (cmd =? String "003" "")%string then raise KeyboardInterrupt
  else ret st.

(** One iteration of the [while True] loop of [main]; [cmd] is what
    [get_input_with_timeout] returned. *)
Definition loop_body (cmd : option string) (st : Loop) : M Loop :=
  st ← try_except_Exception
         (match cmd with
          | Some c => if negb (c =? "")%string then process_command c st else ret st
          | None => ret st
          end)
         (ret st);
  if is_paused (session st) then ret st
  else
    current_time ← now;
    config ← load_config;
    let elapsed_seconds := total_seconds (current_time - last_reminder_time st)%Z in
    if float_ge_int elapsed_seconds (reminder_interval config * 60)%Z then
      ret {| session := session st; last_reminder_time := current_time |}
    else ret st.

(** The [except KeyboardInterrupt] handler of [main]; the result is the
    summary it prints. *)
Definition shutdown (st : Loop) : M string :=
  let s := session st in
  (if negb (current_task s =? "")%string && negb (is_paused s) then
     end_time ← now;
     log_task (current_task s) (task_start_time s) (Some end_time) "Completed"
   else ret tt);;
  update_statistics;;
  get_today_summary true.

(** *** Start of [main] *)

(** The flags of the command line; [--idle] only sets the polling timeout. *)
Record Args := {
  arg_summary : bool;
  arg_config : bool;
  arg_install : bool;
  arg_show_data_dir : bool;
}.

(** How [main] leaves its start: [sys.exit(code)], or the variables with
    which it enters the loop. *)
Inductive Started :=
  | Exit (code : Z)
  | Enter (st : Loop).

(** [main] up to the loop.  [notify_send] tells whether
    [check_dependencies] finds the notification command.  What the flags
    print is not kept; [create_startup_script] writes a file outside the
    modelled ones. *)
Definition main_start (args : Args) (notify_send : bool) : M Started :=
  setup;;
  initialize_day_log;;
  if arg_show_data_dir args then
    get_month_dir;;
    ret (Exit 0)
  else if arg_summary args then
    get_today_summary true;;
    ret (Exit 0)
  else if arg_config args then
    load_config;;
    ret (Exit 0)
  else if arg_install args then ret (Exit 0)
  else if negb notify_send then ret (Exit 1)
  else
    update_statistics;;
    config ← load_config;
    current_task ← get_next_task;
    task_start_time ← now;
    log_task current_task task_start_time None "In Progress";;
    last_reminder_time ← now;
    ret (Enter {| session := {| current_task := current_task;
                                task_start_time := task_start_time;
                                paused_time := None;
                                is_paused := false |};
                  last_reminder_time := last_reminder_time |}).

End WithBuiltins.

End Focus.

(** ** A reference instance of the builtins

    Floats are exact rationals and only plain decimal notation
    ([-12.50], [7]) is parsed; strings are ASCII.  The instance is what
    the examples below are evaluated with; the general statements hold for
    every instance. *)

Module Decimal.
Import Py.

Local Open Scope Z_scope.

Definition is_digit (a : ascii) : bool :=
  let n := nat_of_ascii a in (48 <=? n)%nat && (n <=? 57)%nat.

(** Python's ASCII whitespace: tab to carriage return, the four separators
    and the space. *)
Definition is_space (a : ascii) : bool :=
  let n := nat_of_ascii a in
  (9 <=? n)%nat && (n <=? 13)%nat || (28 <=? n)%nat && (n <=? 32)%nat.

Fixpoint lstrip (s : string) : string :=
  match s with
  | String a s' => if is_space a then lstrip s' else s
  | "" => ""
  end.

Definition strip (s : string) : string :=
  String.rev (lstrip (String.rev (lstrip s))).

Definition upper_char (a : ascii) : ascii :=
  let n := nat_of_ascii a in
  if (97 <=? n)%nat && (n <=? 122)%nat then ascii_of_nat (n - 32) else a.

Definition lower_char (a : ascii) : ascii :=
  let n := nat_of_ascii a in
  if (65 <=? n)%nat && (n <=? 90)%nat then ascii_of_nat (n + 32) else a.

Fixpoint map_chars (f : ascii → ascii) (s : string) : string :=
  match s with
  | "" => ""
  | String a s' => String (f a) (map_chars f s')
  end.

(** The value of a non-empty string of digits, read after [acc]. *)
Fixpoint digits (acc : Z) (s : string) : option Z :=
  match s with
  | "" => Some acc
  | String a s' =>
      if is_digit a
      then digits (10 * acc + Z.of_nat (nat_of_ascii a - 48)) s'
      else None
  end.

Definition unsigned (s : string) : option Z :=
  match s with
  | "" => None
  | _ => digits 0 s
  end.

Definition signed {A} (parse : string → option A) (neg : A → A) (s : string)
    : option A :=
  match s with
  | String "-" s' => neg <$> parse s'
  | String "+" s' => parse s'
  | _ => parse s
  end.

Definition parse_int (s : string) : option Z :=
  signed unsigned Z.opp (strip s).

(** Splits at the first dot. *)
Fixpoint split_dot (s : string) : string * option string :=
  match s with
  | "" => ("", None)
  | String a s' =>
      if (a =? ".")%char then ("", Some s')
      else let '(l, r) := split_dot s' in (String a l, r)
  end.

Definition parse_decimal (s : string) : option Q :=
  match split_dot s with
  | (whole, None) => inject_Z <$> unsigned whole
  | (whole, Some frac) =>
      w ← unsigned whole;
      f ← unsigned frac;
      Some (Qred (inject_Z w
                  + inject_Z f / inject_Z (10 ^ Z.of_nat (String.length frac)))%Q)
  end.

Definition parse_float (s : string) : option Q :=
  signed parse_decimal Qopp (strip s).

(** Rounds to the nearest integer, ties to even. *)
Definition round_half_even (x : Q) : Z :=
  let n := Qnum x in
  let d := Zpos (Qden x) in
  let q := n / d in
  let r := n mod d in
  match (2 * r ?= d) with
  | Lt => q
  | Gt => q + 1
  | Eq => if Z.even q then q else q + 1
  end.

(** [f"{x:.{n}f}"]. *)
Definition format_fixed (n : nat) (x : Q) : string :=
  let scaled := round_half_even (Qabs x * inject_Z (10 ^ Z.of_nat n))%Q in
  let sign := if Qle_bool 0 x then "" else "-" in
  let whole := scaled / 10 ^ Z.of_nat n in
  let frac := scaled mod 10 ^ Z.of_nat n in
  sign +:+ pretty whole
  +:+ (if (0 <? n)%nat then "." +:+ pad n frac else "").

#[global] Instance builtins : Builtins := {|
  float := Q;
  float_of_str := parse_float;
  int_of_str := parse_int;
  float_of_int := inject_Z;
  float_add x y := Qred (x + y)%Q;
  float_div x y := Qred (x / y)%Q;
  float_mul x y := Qred (x * y)%Q;
  float_bool x := negb (Qeq_bool x 0);
  format_f := format_fixed;
  float_ge_int x n := Qle_bool (inject_Z n) x;
  total_seconds us := Qred (inject_Z us / inject_Z US_PER_SECOND)%Q;
  str_strip := strip;
  str_upper := map_chars upper_char;
  str_lower := map_chars lower_char;
|}.

End Decimal.

(** ** Vocabulary of the properties *)

Module Spec.
Import Py Store Focus.
#[local] Open Scope M_scope.

(** Today's log file and its backup, for a date. *)
Definition today_log (d : date) : path := (month_dir_of d, day_file_of d).

Definition backup_log (d : date) : path :=
  (month_dir_of d, with_suffix ".backup" (day_file_of d)).

(** The date does not change from the current reading of the clock on. *)
Definition on_day (w : World) (d : date) : Prop :=
  ∀ n, (ticks w ≤ n)%nat → date_of (clock w n) = d.

(** The world after the two clock readings of [get_day_log_file]. *)
Definition tick2 (w : World) : World := tick (tick w).

(** The rows that [update_task_status] rewrites. *)
Definition updatable (task_name : string) (row : Row) : Prop :=
  Task row = task_name ∧ (Status row = "Abandoned" ∨ Status row = "In Progress").

#[global] Instance updatable_dec task_name row : Decision (updatable task_name row).
Proof. unfold updatable. apply _. Defined.

(** Some row of the log is an abandoned [task]. *)
Definition has_abandoned (task : string) (rows : list Row) : Prop :=
  ∃ row, row ∈ rows ∧ Task row = task ∧ Status row = "Abandoned".



(** Rows that the row loop of [get_today_summary] puts in a section. *)
Definition listed_completed (row : Row) : Prop :=
  Status row = "Completed" ∧ Duration row ≠ "".

Definition listed_abandoned (row : Row) : Prop :=
  Status row = "Abandoned" ∧ Duration row ≠ "".

Definition listed_in_progress (include_in_progress : bool) (row : Row) : Prop :=
  include_in_progress = true ∧ Status row = "In Progress".

#[global] Instance listed_completed_dec row : Decision (listed_completed row).
Proof. unfold listed_completed. apply _. Defined.

#[global] Instance listed_abandoned_dec row : Decision (listed_abandoned row).
Proof. unfold listed_abandoned. apply _. Defined.

#[global] Instance listed_in_progress_dec b row : Decision (listed_in_progress b row).
Proof. unfold listed_in_progress. apply _. Defined.

(** [row] occurs in [rows] with no abandoned row of the same task before it. *)
Definition first_abandoned (row : Row) (rows : list Row) : Prop :=
  ∃ before after,
    rows = before ++ row :: after
    ∧ ∀ r, r ∈ before → ¬ (Status r = "Abandoned" ∧ Task r = Task row).

(** The test of the search loop of [log_task]. *)
Definition is_abandoned (task : string) (row : Row) : bool :=
  (Task row =? task)%string && (Status row =? "Abandoned")%string.

(** What the scan of [get_abandoned_tasks] maintains: [seen] are the rows
    read so far, [acc] is the list [abandoned_tasks]. *)
Definition scan_inv (seen acc : list Row) : Prop :=
  Forall (λ r, Status r = "Abandoned") acc
  ∧ NoDup (Task <$> acc)
  ∧ (∀ r, r ∈ acc → first_abandoned r seen)
  ∧ (∀ r, r ∈ seen → Status r = "Abandoned" → Task r ∈ Task <$> acc).

(** The rows of the [*.csv] files of a directory, latest file name first. *)
Definition month_rows (month_dir : string) (m : gmap path (list Row)) : list Row :=
  concat ((sorted_reverse (glob_csv month_dir m)).*2).

(** A sequence of appends to a day log. *)
Definition append_all (p : path) (rows : list Row) (w : World) : World :=
  fold_left (λ w row, (append_row p row w).2) rows w.

Definition map_result {A B} (f : A → B) (r : result A * World) : result B * World :=
  match r with
  | (Ok a, w) => (Ok (f a), w)
  | (Raise e, w) => (Raise e, w)
  end.

Definition set_paused_time (pt : option datetime) (s : Session) : Session :=
  {| current_task := current_task s; task_start_time := task_start_time s;
     paused_time := pt; is_paused := is_paused s |}.

(** Where the update loop of [update_statistics] stops: the index of the
    first record whose first field is [day_str], if any; an empty record
    before it raises [IndexError]. *)
Fixpoint find_day (day_str : string) (stats : list (list string))
    : result (option nat) :=
  match stats with
  | [] => Ok None
  | [] :: _ => Raise IndexError
  | (key :: _) :: rest =>
      if (key =? day_str)%string then Ok (Some 0%nat)
      else
        match find_day day_str rest with
        | Ok (Some i) => Ok (Some (S i))
        | r => r
        end
  end.

(** The statistics file after the updates for the records [new1] and
    [new2] of two days (none when the day is skipped), starting from the
    file [st]: an update that raises leaves the file as it is and ends the
    run. *)
Definition write_day (new : option (list string)) (st : option (list (list string)))
    : result unit * option (list (list string)) :=
  match new with
  | None => (Ok tt, st)
  | Some new =>
      match upsert_day (default "" (head new)) new
                       (match st with Some recs => tail recs | None => [] end) with
      | Raise e => (Raise e, st)
      | Ok stats => (Ok tt, Some (STATS_HEADER :: stats))
      end
  end.

Definition write_days (new1 new2 : option (list string))
    (st : option (list (list string))) : option (list (list string)) :=
  match write_day new1 st with
  | (Ok _, st1) => (write_day new2 st1).2
  | (Raise _, st1) => st1
  end.

(** [w'] differs from [w] in the statistics file at most. *)
Definition same_but_statistics (w w' : World) : Prop :=
  logs (fs w') = logs (fs w) ∧ config (fs w') = config (fs w)
  ∧ clock w' = clock w ∧ ticks w' = ticks w ∧ stdin w' = stdin w.

(** The last character of a string. *)
Fixpoint last_char (s : string) : option ascii :=
  match s with
  | "" => None
  | String a "" => Some a
  | String _ s' => last_char s'
  end.

(** *** Invariants of the world

    A property of the world is stable under a kind of step when the step
    keeps it: a reading of the clock, a line taken from standard input, a
    write to a day log, a write to the statistics file, a write of a
    reminder interval of at least one minute to the configuration. *)
Definition tick_stable (I : World → Prop) : Prop :=
  ∀ w, I w → I (tick w).

Definition stdin_stable (I : World → Prop) : Prop :=
  ∀ lines w, I w → I (with_stdin lines w).

Definition logs_stable (I : World → Prop) : Prop :=
  ∀ f w, I w → I (with_fs (set_logs f) w).

Definition statistics_stable (I : World → Prop) : Prop :=
  ∀ recs w, I w → I (with_fs (set_statistics recs) w).

Definition config_stable (I : World → Prop) : Prop :=
  ∀ n w, (1 ≤ n)%Z → I w →
    I (with_fs (set_config {| reminder_interval := n |}) w).

(** [m] keeps [I], also when it raises, and never raises
    [KeyboardInterrupt]. *)
Definition safe (I : World → Prop) {A} (m : M A) : Prop :=
  ∀ w, I w →
    I (m w).2 ∧ ∀ e, (m w).1 = Raise e → e ≠ KeyboardInterrupt.

(** The configuration file exists and its reminder interval is at least
    one minute. *)
Definition interval_ok (w : World) : Prop :=
  ∃ c, config (fs w) = Some c ∧ (1 ≤ reminder_interval c)%Z.

(** The first field of a statistics record. *)
Definition day_of (record : list string) : option string := head record.

(** A finished task that the statistics count. *)
Definition counted (row : Row) : Prop :=
  listed_completed row ∨ listed_abandoned row.

#[global] Instance counted_dec row : Decision (counted row).
Proof. unfold counted. apply _. Defined.

Section WithBuiltins.
Context `{Builtins}.

(** What [update_day] writes for a day: nothing when the log is missing
    or has neither a completed nor an abandoned task, else the record of
    the day. *)
Definition day_record (d : date) (m : gmap path (list Row))
    : option (list string) :=
  match m !! (month_dir_of d, day_file_of d) with
  | None => None
  | Some rows =>
      let t := fold_left tally_row rows empty_tally in
      if bool_decide (completed_tasks t = [])
         && bool_decide (abandoned_tasks t = [])
      then None
      else Some (stats_row (strftime_Ymd d) t)
  end.

(** The records of the statistics file after its header. *)
Definition existing_stats_of (s : FS) : list (list string) :=
  match statistics s with
  | Some recs => tail recs
  | None => []
  end.

(** A sequence of keys handled one after the other. *)
Fixpoint run_keys (keys : list string) (s : Session) : M Session :=
  match keys with
  | [] => ret s
  | key :: keys => s ← handle_command key s; run_keys keys s
  end.

(** A sequence of [log_task] calls and the rows they would append. *)
Definition call : Type := string * datetime * option datetime * string.

Definition call_task (c : call) : string := c.1.1.1.
Definition call_status (c : call) : string := c.2.

Fixpoint log_calls (calls : list call) : M unit :=
  match calls with
  | [] => ret tt
  | (task, start_time, end_time, status) :: rest =>
      log_task task start_time end_time status;;
      log_calls rest
  end.

Definition row_of_call (c : call) : Row :=
  new_row (call_task c) c.1.1.2 c.1.2 (call_status c).

(** No call starts a task that a call of the sequence abandons: every call
    takes the appending path of [log_task]. *)
Definition appends_only (calls : list call) : Prop :=
  ∀ c c', c ∈ calls → c' ∈ calls →
    call_status c = "In Progress" → call_status c' = "Abandoned" →
    call_task c' ≠ call_task c.

(** The duration column for a task started at [start] and ended at [e]. *)
Definition duration_str (start e : datetime) : string :=
  let d := float_div (total_seconds (e - start)%Z) (float_of_int 60) in
  if float_bool d then format_f 2 d else "".

(** The keys that end the loop of [main]. *)
Definition quit_key (cmd : option string) : Prop :=
  ∃ key, cmd = Some key ∧ key ≠ ""
         ∧ (str_lower key = "q" ∨ str_lower key = String "003" "").

End WithBuiltins.

End Spec.

(** ** Sample worlds

    The day is 2026-11-04; the examples run with the reference builtins. *)

Module Samples.
Import Py Store Focus Spec Decimal.

Definition d0 : date := Date 2026 11 4.

(** 2026-11-04T10:00:00. *)
Definition t0 : datetime :=
  ((739924 - 1) * US_PER_DAY + 10 * 3600 * US_PER_SECOND)%Z.

Definition seconds (n : Z) : timedelta := (n * US_PER_SECOND)%Z.

Definition row (task start_time end_time duration status : string) : Row :=
  {| Task := task; Start_Time := start_time; End_Time := end_time;
     Duration := duration; Status := status |}.

(** A log in which task A was abandoned twice. *)
Definition rows_abandoned_twice : list Row :=
  [ row "A" "08:00:00" "08:30:00" "30.00" "Abandoned";
    row "B" "08:30:00" "09:00:00" "30.00" "Completed";
    row "A" "09:00:00" "09:10:00" "10.00" "Abandoned" ].

(** A log with a duration that is not a number. *)
Definition rows_malformed : list Row :=
  [ row "A" "08:00:00" "08:30:00" "abc" "Completed" ].

(** A log whose rows appear in no section of the summary. *)
Definition rows_unlisted : list Row :=
  [ row "A" "08:00:00" "08:30:00" "30.00" "In Progress (Resumed)";
    row "B" "09:00:00" "09:00:00" "" "Completed" ].

Definition files (rows : list Row) : FS :=
  {| logs := {[ today_log d0 := rows ]};
     statistics := None;
     config := Some {| reminder_interval := 30 |} |}.

(** A world whose clock stands at [t0]. *)
Definition world (rows : list Row) (lines : list string) : World :=
  {| fs := files rows; clock := λ _, t0; ticks := 0; stdin := lines |}.

(** A world whose [n]-th clock reading is [t0] plus [n] seconds. *)
Definition world_running (rows : list Row) (lines : list string) : World :=
  {| fs := files rows; clock := λ n, (t0 + seconds (Z.of_nat n))%Z;
     ticks := 0; stdin := lines |}.

(** The scenario "pause excludes time": started at [t0], paused after 60 s,
    resumed 120 s later, completed after 60 s more. *)
Definition world_pause : World :=
  {| fs := files [];
     clock := λ n,
       match n with
       | 0%nat => (t0 + seconds 60)%Z
       | 1%nat => (t0 + seconds 180)%Z
       | _ => (t0 + seconds 240)%Z
       end;
     ticks := 0;
     stdin := ["next"] |}.

Definition session_running (task : string) (start : datetime) : Session :=
  {| current_task := task; task_start_time := start;
     paused_time := None; is_paused := false |}.

Definition session_paused (task : string) (start paused : datetime) : Session :=
  {| current_task := task; task_start_time := start;
     paused_time := Some paused; is_paused := true |}.

End Samples.

(** ** Properties *)

Module Props.
Import Py Store Focus Spec.
#[local] Open Scope M_scope.

Create HintDb focus.

(** *** The clock and today's log *)

Lemma on_day_tick w d : on_day w d → on_day (tick w) d.
Proof. intros Hd n Hn. apply Hd. simpl in Hn. lia. Qed.

Lemma on_day_with_fs f w d : on_day w d → on_day (with_fs f w) d.
Proof. intros Hd n Hn. apply Hd, Hn. Qed.

Lemma on_day_with_stdin l w d : on_day w d → on_day (with_stdin l w) d.
Proof. intros Hd n Hn. apply Hd, Hn. Qed.

Lemma on_day_tick2 w d : on_day w d → on_day (tick2 w) d.
Proof. intros. by do 2 apply on_day_tick. Qed.

#[local] Hint Resolve on_day_tick on_day_tick2 on_day_with_fs on_day_with_stdin : focus.

Lemma on_day_now w d : on_day w d → date_of (clock w (ticks w)) = d.
Proof. intros Hd. apply Hd. lia. Qed.

Lemma get_month_dir_on_day w d :
  on_day w d → get_month_dir w = (Ok (month_dir_of d), tick w).
Proof.
  intros Hd. unfold get_month_dir, bind, now, ret.
  by rewrite (on_day_now _ _ Hd).
Qed.

Lemma get_day_log_file_on_day w d :
  on_day w d → get_day_log_file w = (Ok (today_log d), tick2 w).
Proof.
  intros Hd. unfold get_day_log_file, bind, now.
  rewrite (get_month_dir_on_day (tick w) d) by auto with focus.
  unfold ret. by rewrite (on_day_now _ _ Hd).
Qed.

Lemma exists_run p w :
  exists_ p w = (Ok (bool_decide (is_Some (logs (fs w) !! p))), w).
Proof. reflexivity. Qed.

Lemma is_Some_lookup_true {A} (o : option A) x :
  o = Some x → bool_decide (is_Some o) = true.
Proof. intros ->. apply bool_decide_true. eauto. Qed.

Lemma is_Some_lookup_false {A} (o : option A) :
  o = None → bool_decide (is_Some o) = false.
Proof. intros ->. apply bool_decide_false. by intros [? ?]. Qed.

Section WithBuiltins.
Context `{Builtins}.

(** *** [update_task_status] *)

Lemma update_row_spec task_name new_status row :
  update_row task_name new_status row =
  if decide (updatable task_name row) then set_Status new_status row else row.
Proof.
  unfold update_row, updatable.
  destruct (String.eqb_spec (Task row) task_name) as [Ht|Ht]; simpl.
  - case_bool_decide as Hs; case_decide as Hu; try done.
    + exfalso. apply Hu. split; [done|].
      apply elem_of_cons in Hs as [?|Hs]; [by left|].
      apply elem_of_cons in Hs as [?|Hs]; [by right|].
      by apply elem_of_nil in Hs.
    + exfalso. apply Hs. destruct Hu as [_ [->| ->]].
      * apply elem_of_cons. by left.
      * apply elem_of_cons. right. apply elem_of_cons. by left.
  - case_decide as Hu; [|done]. by destruct Hu.
Qed.

Lemma update_task_status_run task_name new_status w d :
  on_day w d →
  update_task_status task_name new_status w =
  match logs (fs w) !! today_log d with
  | None => (Ok false, tick2 w)
  | Some rows =>
      (Ok true,
       with_fs (set_logs <[today_log d := map (update_row task_name new_status) rows]>)
               (tick2 w))
  end.
Proof.
  intros Hd. unfold update_task_status, bind.
  rewrite (get_day_log_file_on_day _ _ Hd), exists_run.
  unfold read_rows, write_rows, bind, get_fs, ret, modify_fs. simpl.
  destruct (logs (fs w) !! today_log d) as [rows|] eqn:Hl.
  - rewrite (is_Some_lookup_true _ rows) by done. simpl. by rewrite Hl.
  - by rewrite is_Some_lookup_false.
Qed.


(** *** [log_task] *)

Lemma existsb_is_abandoned task rows :
  existsb (is_abandoned task) rows = true ↔ has_abandoned task rows.
Proof.
  unfold has_abandoned, is_abandoned. rewrite existsb_exists. split.
  - intros (row & Hin & Hrow). exists row.
    apply andb_true_iff in Hrow as [?%String.eqb_eq ?%String.eqb_eq].
    by rewrite list_elem_of_In.
  - intros (row & Hin & Ht & Hs). exists row.
    rewrite <-list_elem_of_In. split; [done|].
    apply andb_true_iff. by rewrite !String.eqb_eq.
Qed.

Lemma log_task_run task start_time end_time status w d :
  on_day w d →
  log_task task start_time end_time status w =
  match logs (fs w) !! today_log d with
  | Some rows =>
      if (status =? "In Progress")%string && existsb (is_abandoned task) rows
      then
        (Ok tt,
         with_fs (set_logs <[today_log d :=
                    map (update_row task "In Progress (Resumed)") rows]>)
                 (tick2 (tick2 w)))
      else
        (Ok tt,
         with_fs (set_logs <[today_log d :=
                    rows ++ [new_row task start_time end_time status]]>)
                 (tick2 w))
  | None =>
      (Ok tt,
       with_fs (set_logs <[today_log d :=
                  [new_row task start_time end_time status]]>)
               (tick2 w))
  end.
Proof.
  intros Hd. unfold log_task, bind.
  rewrite (get_day_log_file_on_day _ _ Hd), exists_run.
  destruct (logs (fs w) !! today_log d) as [rows|] eqn:Hl.
  - rewrite (is_Some_lookup_true _ rows) by done.
    destruct (status =? "In Progress")%string; simpl.
    + unfold read_rows, bind, get_fs, ret. simpl. rewrite Hl.
      fold (is_abandoned task).
      destruct (existsb (is_abandoned task) rows).
      * rewrite (update_task_status_run _ _ _ d) by auto with focus.
        simpl. by rewrite Hl.
      * unfold append_row, modify_fs, with_fs, set_logs. simpl. by rewrite Hl.
    + unfold ret, append_row, modify_fs, with_fs, set_logs. simpl. by rewrite Hl.
  - rewrite is_Some_lookup_false by done. rewrite andb_false_r.
    unfold ret, append_row, modify_fs, with_fs, set_logs. simpl. by rewrite Hl.
Qed.

(** C1.  On a fixed day, starting task [t] ([log_task] with status
    In Progress) when today's log has an Abandoned row for [t] turns every
    such row into In Progress (Resumed) in place and appends nothing: the
    log keeps its length and the rows of other tasks; when the log has no
    Abandoned row for [t] (or does not exist yet), a fresh In Progress row
    is appended at the end. *)
Theorem log_task_start_resumes_or_appends t start_time w d :
  on_day w d →
  let rows := default [] (logs (fs w) !! today_log d) in
  let r := log_task t start_time None "In Progress" w in
  r.1 = Ok tt
  ∧ (has_abandoned t rows →
       ∃ rows', logs (fs r.2) !! today_log d = Some rows'
         ∧ length rows' = length rows
         ∧ (∀ i row, rows !! i = Some row → Task row = t →
              Status row = "Abandoned" →
              rows' !! i = Some (set_Status "In Progress (Resumed)" row))
         ∧ (∀ i row, rows !! i = Some row → Task row ≠ t →
              rows' !! i = Some row))
  ∧ (¬ has_abandoned t rows →
       logs (fs r.2) !! today_log d =
       Some (rows ++ [ {| Task := t; Start_Time := strftime_HMS start_time;
                          End_Time := ""; Duration := "";
                          Status := "In Progress" |} ])).
Proof.
  intros Hd rows r. subst r rows. rewrite (log_task_run _ _ _ _ _ _ Hd).
  destruct (logs (fs w) !! today_log d) as [rows|] eqn:Hl; simpl.
  - destruct (existsb (is_abandoned t) rows) eqn:Hex; simpl.
    + split; [done|]. split.
      * intros _. eexists. split; [apply lookup_insert_eq|].
        split; [by rewrite length_map|]. split.
        -- intros i row Hi Ht Hs. rewrite list_lookup_fmap, Hi. simpl.
           rewrite update_row_spec, decide_True; [done|]. split; auto.
        -- intros i row Hi Ht. rewrite list_lookup_fmap, Hi. simpl.
           rewrite update_row_spec, decide_False; [done|]. by intros [? _].
      * intros Hno. apply existsb_is_abandoned in Hex. by destruct Hno.
    + split; [done|]. split.
      * intros Hab%existsb_is_abandoned. congruence.
      * intros _. apply lookup_insert_eq.
  - split; [done|]. split.
    + intros (row & Hin & _). by apply elem_of_nil in Hin.
    + intros _. apply lookup_insert_eq.
Qed.

(** *** The record written by [log_task] *)

Lemma app_ne_r (a b : string) : b ≠ "" → a +:+ b ≠ "".
Proof. destruct a; [done|]. by intros. Qed.

Lemma strftime_HMS_ne t : strftime_HMS t ≠ "".
Proof. unfold strftime_HMS. by apply app_ne_r. Qed.

Lemma log_task_append task start_time end_time status w d :
  on_day w d →
  status ≠ "In Progress" →
  log_task task start_time end_time status w =
  (Ok tt,
   with_fs (set_logs <[today_log d :=
              default [] (logs (fs w) !! today_log d)
              ++ [new_row task start_time end_time status]]>)
           (tick2 w)).
Proof.
  intros Hd Hs. rewrite (log_task_run _ _ _ _ _ _ Hd).
  apply String.eqb_neq in Hs. rewrite Hs.
  by destruct (logs (fs w) !! today_log d).
Qed.

(** C3 (the code at the failing input).  When the truth value of the float
    zero is false, as it is in Python, a task that is completed or
    abandoned at the very time it started is logged with a non-empty end
    time and an empty duration field. *)
Theorem log_task_zero_duration task t status w d :
  on_day w d →
  status = "Completed" ∨ status = "Abandoned" →
  float_bool (float_div (total_seconds 0) (float_of_int 60)) = false →
  ∃ row,
    log_task task t (Some t) status w =
    (Ok tt,
     with_fs (set_logs <[today_log d :=
                default [] (logs (fs w) !! today_log d) ++ [row]]>)
             (tick2 w))
    ∧ Task row = task
    ∧ Status row = status
    ∧ End_Time row ≠ ""
    ∧ Duration row = "".
Proof.
  intros Hd Hs Hzero. exists (new_row task t (Some t) status).
  split; [|split; [done|split; [done|split]]].
  - apply log_task_append; [done|]. by destruct Hs as [-> | ->].
  - apply strftime_HMS_ne.
  - unfold new_row. simpl. by rewrite Z.sub_diag, Hzero.
Qed.

(** *** [get_abandoned_tasks] *)

#[global] Instance name_ge_trans : Transitive name_ge.
Proof. intros f g h Hfg Hgh. unfold name_ge in *. by etrans. Qed.

#[global] Instance name_ge_total : Total name_ge.
Proof. intros f g. unfold name_ge. destruct (total String.le g.1.2 f.1.2); auto. Qed.

Lemma sorted_reverse_sorted files : StronglySorted name_ge (sorted_reverse files).
Proof. apply StronglySorted_merge_sort; apply _. Qed.

Lemma sorted_reverse_perm files : sorted_reverse files ≡ₚ files.
Proof. apply merge_sort_Permutation. Qed.

Lemma elem_of_glob_csv month_dir m f :
  f ∈ glob_csv month_dir m ↔
  m !! f.1 = Some f.2 ∧ f.1.1 = month_dir ∧ endswith ".csv" f.1.2 = true.
Proof.
  unfold glob_csv. rewrite list_elem_of_filter.
  destruct f as [p rows]. rewrite elem_of_map_to_list. simpl. tauto.
Qed.

Lemma first_abandoned_app row seen rest :
  first_abandoned row seen → first_abandoned row (seen ++ rest).
Proof.
  intros (before & after & -> & Hb). exists before, (after ++ rest).
  split; [|done]. by rewrite <-app_assoc.
Qed.

Lemma existsb_task task (acc : list Row) :
  existsb (λ t, (Task t =? task)%string) acc = true ↔ task ∈ Task <$> acc.
Proof.
  rewrite existsb_exists, list_elem_of_fmap. split.
  - intros (r & Hin%list_elem_of_In & ?%String.eqb_eq). eauto.
  - intros (r & -> & Hin%list_elem_of_In). exists r. by rewrite String.eqb_eq.
Qed.

Lemma scan_inv_nil : scan_inv [] [].
Proof.
  repeat split; [constructor|constructor|..].
  - intros r Hr. by apply elem_of_nil in Hr.
  - intros r Hr. by apply elem_of_nil in Hr.
Qed.

Lemma add_abandoned_inv seen acc row :
  scan_inv seen acc → scan_inv (seen ++ [row]) (add_abandoned acc row).
Proof.
  intros (Hst & Hnd & Hfirst & Hseen). unfold add_abandoned.
  destruct (String.eqb_spec (Status row) "Abandoned") as [Hs|Hs].
  - destruct (existsb _ acc) eqn:Hex.
    + apply existsb_task in Hex. repeat split; [done|done|..].
      * intros r Hr. by apply first_abandoned_app, Hfirst.
      * intros r [Hr| ->%list_elem_of_singleton]%elem_of_app ?; auto.
    + assert (Task row ∉ Task <$> acc) as Hnew.
      { intros Hin%existsb_task. congruence. }
      repeat split.
      * apply Forall_app. split; [done|]. by constructor.
      * rewrite fmap_app. apply NoDup_app. split; [done|]. split.
        -- intros task Hin ->%list_elem_of_singleton. done.
        -- apply NoDup_singleton.
      * intros r [Hr| ->%list_elem_of_singleton]%elem_of_app.
        -- by apply first_abandoned_app, Hfirst.
        -- exists seen, []. split; [done|].
           intros r Hr [Hrs Hrt]. apply Hnew. rewrite <-Hrt. by apply Hseen.
      * intros r [Hr| ->%list_elem_of_singleton]%elem_of_app Hrs;
          rewrite fmap_app; apply elem_of_app.
        -- left. by apply Hseen.
        -- right. by apply list_elem_of_singleton.
  - repeat split; [done|done|..].
    + intros r Hr. by apply first_abandoned_app, Hfirst.
    + intros r [Hr| ->%list_elem_of_singleton]%elem_of_app ?; [auto|done].
Qed.

Lemma fold_add_abandoned_inv rows seen acc :
  scan_inv seen acc →
  scan_inv (seen ++ rows) (fold_left add_abandoned rows acc).
Proof.
  revert seen acc. induction rows as [|row rows IH]; intros seen acc Hinv; simpl.
  - by rewrite app_nil_r.
  - replace (seen ++ row :: rows) with ((seen ++ [row]) ++ rows)
      by (by rewrite <-app_assoc).
    by apply IH, add_abandoned_inv.
Qed.

(** The scan stops at a file boundary: it has read a prefix of the rows. *)
Lemma scan_files_inv files seen acc :
  scan_inv seen acc →
  ∃ seen' rest,
    seen ++ concat files.*2 = seen' ++ rest
    ∧ scan_inv seen' (scan_files files acc).
Proof.
  revert seen acc. induction files as [|[p rows] files IH]; intros seen acc Hinv.
  - exists seen, []. simpl. by rewrite app_nil_r.
  - apply (fold_add_abandoned_inv rows) in Hinv.
    rewrite fmap_cons, concat_cons, app_assoc.
    change (scan_files ((p, rows) :: files) acc)
      with (let acc' := fold_left add_abandoned rows acc in
            if (10 <=? length acc')%nat then acc' else scan_files files acc').
    cbv zeta. simpl snd.
    destruct (10 <=? length (fold_left add_abandoned rows acc))%nat.
    + by exists (seen ++ rows), (concat files.*2).
    + destruct (IH _ _ Hinv) as (seen' & rest & Heq & Hinv').
      by exists seen', rest.
Qed.

(** C7.  On a fixed day, [get_abandoned_tasks] returns at most 10 rows, all
    with status Abandoned and with pairwise distinct task names; each of
    them is the first abandoned row of its task among the rows of the
    [*.csv] files of the current month's directory read in descending file
    name order, and so comes from one of those files. *)
Theorem get_abandoned_tasks_spec w d :
  on_day w d →
  let files := sorted_reverse (glob_csv (month_dir_of d) (logs (fs w))) in
  ∃ tasks,
    get_abandoned_tasks w = (Ok tasks, tick w)
    ∧ (length tasks ≤ 10)%nat
    ∧ Forall (λ r, Status r = "Abandoned") tasks
    ∧ NoDup (Task <$> tasks)
    ∧ StronglySorted name_ge files
    ∧ (∀ r, r ∈ tasks →
         first_abandoned r (month_rows (month_dir_of d) (logs (fs w))))
    ∧ (∀ r, r ∈ tasks →
         ∃ name rows,
           logs (fs w) !! (month_dir_of d, name) = Some rows
           ∧ endswith ".csv" name = true
           ∧ r ∈ rows).
Proof.
  intros Hd files. unfold get_abandoned_tasks, bind.
  rewrite (get_month_dir_on_day _ _ Hd). unfold get_fs, ret. simpl.
  fold files.
  destruct (scan_files_inv files [] [] scan_inv_nil)
    as (seen' & rest & Heq & Hst & Hnd & Hfirst & _).
  simpl in Heq.
  assert (∀ r, r ∈ take 10 (scan_files files []) →
            first_abandoned r (month_rows (month_dir_of d) (logs (fs w))))
    as Hfirst'.
  { intros r Hr%subseteq_take. unfold month_rows. fold files. rewrite Heq.
    by apply first_abandoned_app, Hfirst. }
  eexists. split; [done|]. split; [|split; [|split; [|split; [|split]]]].
  - rewrite length_take. lia.
  - by apply Forall_take.
  - rewrite fmap_take. eapply sublist_NoDup; [exact Hnd|apply sublist_take].
  - apply sorted_reverse_sorted.
  - done.
  - intros r Hr. destruct (Hfirst' r Hr) as (before & after & Hrows & _).
    assert (r ∈ concat files.*2) as Hin.
    { unfold month_rows in Hrows. fold files in Hrows. rewrite Hrows.
      apply elem_of_app. right. by left. }
    apply list_elem_of_In, in_concat in Hin as (rows & Hrows' & Hrin).
    apply list_elem_of_In in Hrows', Hrin.
    apply list_elem_of_fmap in Hrows' as ([[dir name] rows'] & -> & Hf).
    unfold files in Hf. rewrite sorted_reverse_perm in Hf.
    apply elem_of_glob_csv in Hf as (Hlook & Hdir & Hext). simpl in *.
    subst dir. eauto.
Qed.

(** *** [update_statistics] leaves the logs alone *)

Lemma update_day_run d w :
  update_day d w =
  match day_record d (logs (fs w)) with
  | None => (Ok tt, w)
  | Some new =>
      match upsert_day (strftime_Ymd d) new (existing_stats_of (fs w)) with
      | Raise e => (Raise e, w)
      | Ok stats => (Ok tt, with_fs (set_statistics (STATS_HEADER :: stats)) w)
      end
  end.
Proof.
  unfold update_day, day_record, bind, get_fs. simpl.
  destruct (logs (fs w) !! _) as [rows|]; [|done].
  destruct (_ && _); [done|]. fold (existing_stats_of (fs w)).
  by destruct (upsert_day _ _ _).
Qed.

Lemma update_day_frame d w : same_but_statistics w (update_day d w).2.
Proof.
  rewrite update_day_run. destruct (day_record _ _); [|done].
  by destruct (upsert_day _ _ _).
Qed.

Lemma update_statistics_logs w :
  logs (fs (update_statistics w).2) = logs (fs w).
Proof.
  unfold update_statistics, bind, now.
  destruct (update_day_frame (day_before (clock w (ticks w))) (tick w))
    as (Hl & _).
  destruct (update_day _ (tick w)) as [[[]|e] w1]; simpl in *; [|done].
  destruct (update_day_frame (date_of (clock w (ticks w))) w1) as (Hl' & _).
  by rewrite Hl', Hl.
Qed.

(** *** [update_statistics] is idempotent *)

Lemma replace_day_find k n s :
  replace_day k n s =
  match find_day k s with
  | Ok (Some i) => Ok (<[i:=n]> s, true)
  | Ok None => Ok (s, false)
  | Raise e => Raise e
  end.
Proof.
  induction s as [|[|key row] s IH]; simpl; [done..|].
  destruct (key =? k)%string; [done|]. rewrite IH.
  by destruct (find_day k s) as [[i|]|e].
Qed.

Lemma upsert_day_find k n s :
  upsert_day k n s =
  match find_day k s with
  | Ok (Some i) => Ok (<[i:=n]> s)
  | Ok None => Ok (s ++ [n])
  | Raise e => Raise e
  end.
Proof.
  unfold upsert_day. rewrite replace_day_find.
  by destruct (find_day k s) as [[i|]|e].
Qed.

Lemma find_day_lookup k s i :
  find_day k s = Ok (Some i) → ∃ tl, s !! i = Some (k :: tl).
Proof.
  revert i. induction s as [|[|key row] s IH]; intros i; simpl; [done..|].
  destruct (String.eqb_spec key k) as [->|Hne].
  - intros [= <-]. eauto.
  - destruct (find_day k s) as [[j|]|e]; [|done..].
    intros [= <-]. by apply IH.
Qed.

Lemma find_day_app k s n i :
  find_day k s = Ok (Some i) → find_day k (s ++ [n]) = Ok (Some i).
Proof.
  revert i. induction s as [|[|key row] s IH]; intros i; simpl; [done..|].
  destruct (key =? k)%string; [done|].
  destruct (find_day k s) as [[j|]|e]; [|done..].
  intros [= <-]. by rewrite (IH j).
Qed.

Lemma find_day_app_new k s tl :
  find_day k s = Ok None → find_day k (s ++ [k :: tl]) = Ok (Some (length s)).
Proof.
  induction s as [|[|key row] s IH]; simpl; [|done|].
  - by rewrite String.eqb_refl.
  - destruct (key =? k)%string; [done|].
    destruct (find_day k s) as [[j|]|e]; [done| |done].
    intros _. by rewrite IH.
Qed.

(** Replacing the record found for one day does not move the record found
    for a day, be it the same day or another. *)
Lemma find_day_insert k k' tl s i j :
  find_day k s = Ok (Some i) →
  find_day k' s = Ok (Some j) →
  find_day k (<[j:=k' :: tl]> s) = Ok (Some i).
Proof.
  revert i j. induction s as [|[|key row] s IH]; intros i j; simpl; [done..|].
  destruct (String.eqb_spec key k) as [->|Hk].
  - intros [= <-]. destruct (String.eqb_spec k k') as [->|Hk'].
    + intros [= <-]. simpl. by rewrite String.eqb_refl.
    + destruct (find_day k' s) as [[j'|]|e]; [|done..].
      intros [= <-]. simpl. by rewrite String.eqb_refl.
  - destruct (find_day k s) as [[i'|]|e] eqn:Hi; [|done..].
    intros [= <-]. destruct (String.eqb_spec key k') as [->|Hk'].
    + intros [= <-]. simpl. apply String.eqb_neq in Hk. by rewrite Hk, Hi.
    + destruct (find_day k' s) as [[j'|]|e] eqn:Hj; [|done..].
      intros [= <-]. simpl. apply String.eqb_neq in Hk. rewrite Hk.
      by rewrite (IH i' j').
Qed.

Lemma upsert_day_found k tl s s' :
  upsert_day k (k :: tl) s = Ok s' →
  ∃ i, find_day k s' = Ok (Some i) ∧ s' !! i = Some (k :: tl).
Proof.
  rewrite upsert_day_find.
  destruct (find_day k s) as [[i|]|e] eqn:Hf; [| |done]; intros [= <-].
  - exists i. split; [by apply (find_day_insert k k tl s i i)|].
    destruct (find_day_lookup _ _ _ Hf) as [tl' Hi].
    apply list_lookup_insert_eq. by eapply lookup_lt_Some.
  - exists (length s). split; [by apply find_day_app_new|].
    by rewrite lookup_app_r, Nat.sub_diag.
Qed.

Lemma upsert_day_idempotent k tl s s' :
  upsert_day k (k :: tl) s = Ok s' → upsert_day k (k :: tl) s' = Ok s'.
Proof.
  intros (i & Hf & Hi)%upsert_day_found.
  by rewrite upsert_day_find, Hf, list_insert_id.
Qed.

(** The updates for two days, run a second time, rebuild the same list. *)
Lemma upsert_day_twice k1 tl1 k2 tl2 s s1 s2 :
  upsert_day k1 (k1 :: tl1) s = Ok s1 →
  upsert_day k2 (k2 :: tl2) s1 = Ok s2 →
  ∃ s1', upsert_day k1 (k1 :: tl1) s2 = Ok s1'
         ∧ upsert_day k2 (k2 :: tl2) s1' = Ok s2.
Proof.
  intros (i & Hf1 & Hi)%upsert_day_found H2.
  pose proof (upsert_day_idempotent _ _ _ _ H2) as Hidem.
  rewrite upsert_day_find in H2.
  destruct (find_day k2 s1) as [[j|]|e] eqn:Hf2; [| |done];
    injection H2 as <-.
  - rewrite upsert_day_find, (find_day_insert k1 k2 tl2 s1 i j) by done.
    eexists. split; [done|].
    destruct (decide (i = j)) as [->|Hij].
    + rewrite list_insert_insert_eq, (list_insert_id s1 j) by done.
      by rewrite upsert_day_find, Hf2.
    + rewrite list_insert_insert_ne, (list_insert_id s1 i) by done.
      done.
  - rewrite upsert_day_find, (find_day_app k1 s1 _ i) by done.
    eexists. split; [done|].
    rewrite insert_app_l by (by eapply lookup_lt_Some).
    by rewrite (list_insert_id s1 i).
Qed.

Lemma write_day_idempotent new st :
  new ≠ Some [] →
  (write_day new (write_day new st).2).2 = (write_day new st).2.
Proof.
  intros Hne. destruct new as [[|k tl]|]; [done| |done]. cbn -[upsert_day].
  set (ex := match st with Some recs => tail recs | None => [] end).
  destruct (upsert_day k (k :: tl) ex) as [s'|e] eqn:Hu; cbn -[upsert_day].
  - by rewrite (upsert_day_idempotent _ _ _ _ Hu).
  - fold ex. by rewrite Hu.
Qed.

Lemma write_days_idempotent new1 new2 st :
  new1 ≠ Some [] → new2 ≠ Some [] →
  write_days new1 new2 (write_days new1 new2 st) = write_days new1 new2 st.
Proof.
  intros Hne1 Hne2. unfold write_days.
  destruct new1 as [[|k1 tl1]|]; [done| |].
  2:{ cbn -[upsert_day]. apply (write_day_idempotent new2 st Hne2). }
  cbn -[upsert_day].
  set (ex := match st with Some recs => tail recs | None => [] end).
  destruct (upsert_day k1 (k1 :: tl1) ex) as [s1|e] eqn:Hu1;
    [|by cbn -[upsert_day]; fold ex; rewrite Hu1].
  destruct new2 as [[|k2 tl2]|]; [done| |].
  2:{ cbn -[upsert_day].
      by rewrite (upsert_day_idempotent _ _ _ _ Hu1). }
  cbn -[upsert_day].
  destruct (upsert_day k2 (k2 :: tl2) s1) as [s2|e] eqn:Hu2; cbn -[upsert_day].
  - destruct (upsert_day_twice _ _ _ _ _ _ _ Hu1 Hu2) as (s1' & -> & Hu2').
    cbn -[upsert_day]. by rewrite Hu2'.
  - rewrite (upsert_day_idempotent _ _ _ _ Hu1). cbn -[upsert_day].
    by rewrite Hu2.
Qed.

Lemma update_day_write d w :
  let r := update_day d w in
  let wr := write_day (day_record d (logs (fs w))) (statistics (fs w)) in
  statistics (fs r.2) = wr.2
  ∧ (r.1 = Ok tt ↔ wr.1 = Ok tt)
  ∧ same_but_statistics w r.2.
Proof.
  intros r wr. split; [|split; [|apply update_day_frame]]; subst r wr;
    rewrite update_day_run; unfold day_record, write_day, existing_stats_of;
    destruct (logs (fs w) !! _) as [rows|]; try done;
    destruct (_ && _); try done; simpl;
    by destruct (upsert_day _ _ _).
Qed.

Lemma day_record_ne d m : day_record d m ≠ Some [].
Proof.
  unfold day_record. destruct (m !! _); [|done]. by destruct (_ && _).
Qed.

Lemma update_statistics_write w :
  let t := clock w (ticks w) in
  let w' := (update_statistics w).2 in
  statistics (fs w')
  = write_days (day_record (day_before t) (logs (fs w)))
               (day_record (date_of t) (logs (fs w))) (statistics (fs w))
  ∧ same_but_statistics (tick w) w'.
Proof.
  intros t w'. subst w'. unfold update_statistics, bind, now. fold t.
  destruct (update_day_write (day_before t) (tick w)) as (Hs1 & Hr1 & Hf1).
  unfold write_days. simpl in Hs1, Hr1.
  destruct (update_day (day_before t) (tick w)) as [[[]|e] w1];
    destruct (write_day (day_record (day_before t) (logs (fs w))) _)
      as [[[]|e'] st1]; simpl in *;
    try (by destruct Hr1 as [Hr1 Hr1']; (discriminate (Hr1 eq_refl)
                                       || discriminate (Hr1' eq_refl))).
  - destruct (update_day_write (date_of t) w1) as (Hs2 & _ & Hf2).
    simpl in Hs2. destruct Hf1 as (Hl1 & ? & ? & ? & ?).
    rewrite Hs2, Hl1, Hs1. split; [done|].
    destruct Hf2 as (? & ? & ? & ? & ?). unfold same_but_statistics.
    repeat split; congruence.
  - done.
Qed.

Lemma FS_eq (a b : FS) :
  logs a = logs b → statistics a = statistics b → config a = config b → a = b.
Proof. destruct a, b. simpl. by intros -> -> ->. Qed.

(** C5.  With the day logs fixed and both runs reading the same date from
    the clock, a second run of [update_statistics] leaves every file, and
    so the statistics file record for record, as the first run left it. *)
Theorem update_statistics_idempotent w :
  toordinal (clock w (S (ticks w))) = toordinal (clock w (ticks w)) →
  let w1 := (update_statistics w).2 in
  fs (update_statistics w1).2 = fs w1.
Proof.
  intros Hday w1.
  destruct (update_statistics_write w) as (Hs1 & Hl1 & Hc1 & Hclock & Hticks & _).
  destruct (update_statistics_write w1) as (Hs2 & Hl2 & Hc2 & _).
  fold w1 in Hs1, Hl1, Hc1, Hclock, Hticks. simpl in *.
  apply FS_eq; [done| |done].
  rewrite Hs2, Hl1, Hclock, Hticks. simpl. unfold date_of, day_before.
  rewrite Hday. fold (date_of (clock w (ticks w))).
  fold (day_before (clock w (ticks w))). rewrite Hs1.
  apply write_days_idempotent; apply day_record_ne.
Qed.

(** *** [clear_today_tasks] *)

Lemma last_char_app a b : b ≠ "" → last_char (a +:+ b) = last_char b.
Proof.
  intros Hb. induction a as [|c a IH]; [done|]. simpl.
  destruct (a +:+ b) eqn:Hab; [|done].
  by apply (app_ne_r a b) in Hb.
Qed.

Lemma with_suffix_last suffix name :
  suffix ≠ "" → last_char (with_suffix suffix name) = last_char suffix.
Proof.
  intros Hs. unfold with_suffix.
  destruct (rsplit_dot name) as [[stem ext]|]; [destruct (_ && _)|];
    by apply last_char_app.
Qed.

Lemma day_file_of_last d : last_char (day_file_of d) = Some "v"%char.
Proof.
  unfold day_file_of.
  repeat (rewrite last_char_app; [|by repeat apply app_ne_r]). done.
Qed.

Lemma backup_log_ne d : backup_log d ≠ today_log d.
Proof.
  intros [= Heq]. apply (f_equal last_char) in Heq.
  rewrite with_suffix_last, day_file_of_last in Heq; done.
Qed.

Lemma clear_today_tasks_logs w d rows :
  on_day w d →
  logs (fs w) !! today_log d = Some rows →
  logs (fs (clear_today_tasks w).2) =
  <[today_log d := []]> (delete (today_log d)
                           (<[backup_log d := rows]> (logs (fs w)))).
Proof.
  intros Hd Hl. unfold clear_today_tasks, bind.
  rewrite (get_day_log_file_on_day _ _ Hd), exists_run.
  rewrite (is_Some_lookup_true _ rows) by done.
  unfold read_rows, bind, get_fs. simpl. rewrite Hl.
  unfold write_rows, unlink, modify_fs. simpl.
  unfold initialize_day_log, bind.
  rewrite (get_day_log_file_on_day _ d) by auto with focus.
  rewrite exists_run. simpl.
  rewrite is_Some_lookup_false by apply lookup_delete_eq. simpl.
  unfold write_rows, modify_fs. simpl.
  by rewrite update_statistics_logs.
Qed.

Lemma append_row_lookup p row w :
  logs (fs (append_row p row w).2) !! p
  = Some (default [] (logs (fs w) !! p) ++ [row])
  ∧ ∀ q, q ≠ p → logs (fs (append_row p row w).2) !! q = logs (fs w) !! q.
Proof.
  unfold append_row, modify_fs. simpl.
  destruct (logs (fs w) !! p); simpl;
    (split; [apply lookup_insert_eq|]); intros q Hq; by apply lookup_insert_ne.
Qed.

Lemma append_all_lookup p appended w rows :
  logs (fs w) !! p = Some rows →
  logs (fs (append_all p appended w)) !! p = Some (rows ++ appended)
  ∧ ∀ q, q ≠ p → logs (fs (append_all p appended w)) !! q = logs (fs w) !! q.
Proof.
  revert w rows. induction appended as [|row appended IH]; intros w rows Hl.
  - simpl. by rewrite app_nil_r.
  - destruct (append_row_lookup p row w) as [Hp Hq]. rewrite Hl in Hp.
    destruct (IH _ _ Hp) as [Hp' Hq'].
    change (append_all p (row :: appended) w)
      with (append_all p appended (append_row p row w).2).
    rewrite Hp', <-app_assoc. split; [done|].
    intros q Hne. by rewrite Hq', Hq.
Qed.

Lemma on_day_same w w' d :
  clock w' = clock w → ticks w' = ticks w → on_day w d → on_day w' d.
Proof. intros Hc Ht Hd n Hn. rewrite Hc. apply Hd. by rewrite <-Ht. Qed.

Lemma update_statistics_on_day w d :
  on_day w d → on_day (update_statistics w).2 d.
Proof.
  intros Hd. destruct (update_statistics_write w) as (_ & _ & _ & Hc & Ht & _).
  eapply on_day_same; [exact Hc|exact Ht|]. auto with focus.
Qed.

Lemma clear_today_tasks_on_day w d :
  on_day w d → on_day (clear_today_tasks w).2 d.
Proof.
  intros Hd. unfold clear_today_tasks, bind.
  rewrite (get_day_log_file_on_day _ _ Hd), exists_run.
  destruct (bool_decide _).
  - unfold read_rows, bind, get_fs. simpl.
    destruct (logs (fs w) !! today_log d) as [rows|];
      [|simpl; auto with focus].
    unfold write_rows, unlink, modify_fs. simpl.
    unfold initialize_day_log, bind.
    rewrite (get_day_log_file_on_day _ d) by auto with focus.
    rewrite exists_run. simpl.
    destruct (bool_decide _); simpl;
      apply update_statistics_on_day; unfold write_rows, modify_fs, ret;
      simpl; auto 10 with focus.
  - unfold ret. apply update_statistics_on_day. auto with focus.
Qed.

Lemma has_abandoned_app task rows row :
  has_abandoned task (rows ++ [row]) ↔
  has_abandoned task rows ∨ (Task row = task ∧ Status row = "Abandoned").
Proof.
  unfold has_abandoned. split.
  - intros (r & [Hin| ->%list_elem_of_singleton]%elem_of_app & Ht & Hs); eauto.
  - intros [(r & Hin & Ht & Hs)|[Ht Hs]].
    + exists r. rewrite elem_of_app. auto.
    + exists row. rewrite elem_of_app, list_elem_of_singleton. auto.
Qed.

(** Calls that never resume append their rows in order. *)
Lemma log_calls_append calls rows w d :
  on_day w d →
  logs (fs w) !! today_log d = Some rows →
  (∀ c, c ∈ calls → call_status c = "In Progress" →
        ¬ has_abandoned (call_task c) rows) →
  appends_only calls →
  ∃ w', log_calls calls w = (Ok tt, w')
        ∧ logs (fs w') !! today_log d = Some (rows ++ map row_of_call calls).
Proof.
  revert rows w.
  induction calls as [|[[[task start_time] end_time] status] calls IH];
    intros rows w Hd Hl Hrows Happ.
  - exists w. by rewrite app_nil_r.
  - cbn [log_calls]. unfold bind at 1.
    rewrite (log_task_run _ _ _ _ _ _ Hd), Hl.
    assert ((status =? "In Progress")%string
            && existsb (is_abandoned task) rows = false) as ->.
    { destruct (String.eqb_spec status "In Progress") as [Hs|Hs]; [|done].
      simpl. apply not_true_is_false. intros Hex%existsb_is_abandoned.
      by apply (Hrows (task, start_time, end_time, status)); [left|..]. }
    destruct (IH (rows ++ [new_row task start_time end_time status])
                 (with_fs (set_logs <[today_log d :=
                    rows ++ [new_row task start_time end_time status]]>)
                    (tick2 w))) as (w' & Hrun & Hl').
    + auto with focus.
    + apply lookup_insert_eq.
    + intros c Hc Hs [Hab|[Ht Hst]]%has_abandoned_app.
      * apply (Hrows c); [by right|done..].
      * apply (Happ c (task, start_time, end_time, status));
          [by right|by left|done..].
    + intros c c' Hc Hc'. apply Happ; by right.
    + exists w'. split; [done|]. by rewrite Hl', <-app_assoc.
Qed.

(** C9.  On a fixed day, when today's log exists, [clear_today_tasks]
    leaves its rows in the sibling [.backup] file (whatever that file held
    before), leaves today's log with the header only and touches no other
    log; after any sequence of appends to the cleared log, it holds the
    header followed by exactly the appended rows, and so it does after any
    sequence of [log_task] calls that take the appending path. *)
Theorem clear_today_tasks_then_append w d rows :
  on_day w d →
  logs (fs w) !! today_log d = Some rows →
  let w' := (clear_today_tasks w).2 in
  logs (fs w') !! backup_log d = Some rows
  ∧ logs (fs w') !! today_log d = Some []
  ∧ (∀ p, p ≠ today_log d → p ≠ backup_log d →
       logs (fs w') !! p = logs (fs w) !! p)
  ∧ (∀ appended,
       records <$> logs (fs (append_all (today_log d) appended w')) !! today_log d
       = Some (DAY_HEADER :: map record_of appended))
  ∧ (∀ calls, appends_only calls →
       ∃ w'', log_calls calls w' = (Ok tt, w'')
              ∧ logs (fs w'') !! today_log d = Some (map row_of_call calls)).
Proof.
  intros Hd Hl w'. subst w'.
  pose proof (clear_today_tasks_logs _ _ _ Hd Hl) as Hlogs.
  assert (logs (fs (clear_today_tasks w).2) !! today_log d = Some []) as Hnew
    by (rewrite Hlogs; apply lookup_insert_eq).
  split; [|split; [done|split; [|split]]].
  - rewrite Hlogs, lookup_insert_ne, lookup_delete_ne, lookup_insert_eq;
      auto using backup_log_ne; by intros ?%eq_sym%backup_log_ne.
  - intros p Hp Hb. rewrite Hlogs.
    by rewrite lookup_insert_ne, lookup_delete_ne, lookup_insert_ne.
  - intros appended.
    destruct (append_all_lookup (today_log d) appended _ [] Hnew) as [-> _].
    done.
  - intros calls Happ.
    apply (log_calls_append calls [] _ d); [|done| |done].
    + by apply clear_today_tasks_on_day.
    + intros c _ _ (r & Hin & _). by apply elem_of_nil in Hin.
Qed.

(** *** [get_today_summary] *)

Ltac classify_cases row b :=
  unfold classify_row, listed_completed, listed_abandoned, listed_in_progress;
  rewrite filter_cons, filter_nil;
  destruct (String.eqb_spec (Status row) "Completed");
  destruct (String.eqb_spec (Status row) "Abandoned");
  destruct (String.eqb_spec (Status row) "In Progress");
  destruct (String.eqb_spec (Duration row) "");
  destruct b; simpl; try case_decide; simpl; rewrite ?app_nil_r;
  first [done | exfalso; intuition congruence].

Lemma classify_row_completed b t row :
  completed_tasks (classify_row b t row) =
  completed_tasks t ++ filter listed_completed [row].
Proof. classify_cases row b. Qed.

Lemma classify_row_abandoned b t row :
  abandoned_tasks (classify_row b t row) =
  abandoned_tasks t ++ filter listed_abandoned [row].
Proof. classify_cases row b. Qed.

Lemma classify_row_in_progress b t row :
  in_progress_tasks (classify_row b t row) =
  in_progress_tasks t ++ filter (listed_in_progress b) [row].
Proof. classify_cases row b. Qed.

(** The three lists after the row loop: the rows of each kind, in the order
    of the log. *)
Lemma classify_rows b rows t :
  let t' := fold_left (classify_row b) rows t in
  completed_tasks t' = completed_tasks t ++ filter listed_completed rows
  ∧ abandoned_tasks t' = abandoned_tasks t ++ filter listed_abandoned rows
  ∧ in_progress_tasks t' =
    in_progress_tasks t ++ filter (listed_in_progress b) rows.
Proof.
  revert t. induction rows as [|row rows IH]; intros t; simpl.
  - by rewrite !app_nil_r.
  - destruct (IH (classify_row b t row)) as (-> & -> & ->).
    rewrite classify_row_completed, classify_row_abandoned,
      classify_row_in_progress.
    rewrite <-!app_assoc, <-!filter_app. done.
Qed.



Lemma get_today_summary_run b w d :
  on_day w d →
  get_today_summary b w =
  match logs (fs w) !! today_log d with
  | None => (Ok "No tasks recorded today.", tick2 w)
  | Some rows => (summary_of b rows, tick2 w)
  end.
Proof.
  intros Hd. unfold get_today_summary, bind.
  rewrite (get_day_log_file_on_day _ _ Hd), exists_run.
  destruct (logs (fs w) !! today_log d) as [rows|] eqn:Hl.
  - rewrite (is_Some_lookup_true _ rows) by done. simpl.
    unfold read_rows, bind, get_fs. simpl. rewrite Hl. unfold ret.
    by destruct (summary_of b rows).
  - by rewrite is_Some_lookup_false.
Qed.


Lemma duration_lines_cases i tasks :
  (∃ lines, duration_lines i tasks = Ok lines)
  ∨ duration_lines i tasks = Raise ValueError.
Proof.
  revert i. induction tasks as [|task tasks IH]; intros i; simpl; [eauto|].
  destruct (float_of_str (Duration task)); [|by right].
  destruct (IH (S i)) as [[lines ->]| ->]; eauto.
Qed.

Lemma duration_lines_malformed i tasks row :
  row ∈ tasks → float_of_str (Duration row) = None →
  duration_lines i tasks = Raise ValueError.
Proof.
  intros Hin Hbad. revert i.
  induction tasks as [|task tasks IH]; intros i; [by apply elem_of_nil in Hin|].
  simpl. apply elem_of_cons in Hin as [<-|Hin].
  - by rewrite Hbad.
  - destruct (float_of_str (Duration task)); [|done]. by rewrite IH.
Qed.

Lemma summary_of_malformed b rows row :
  row ∈ rows →
  listed_completed row ∨ listed_abandoned row →
  float_of_str (Duration row) = None →
  summary_of b rows = Raise ValueError.
Proof.
  intros Hin Hlisted Hbad. unfold summary_of.
  destruct (classify_rows b rows empty_tally) as (Hc & Ha & _).
  simpl in Hc, Ha. rewrite Hc, Ha. clear Hc Ha.
  destruct Hlisted as [Hrow|Hrow].
  - assert (row ∈ filter listed_completed rows) as Hf
      by (by apply list_elem_of_filter).
    rewrite (bool_decide_false (filter listed_completed rows = []))
      by (intros Hnil; rewrite Hnil in Hf; by apply elem_of_nil in Hf).
    simpl. by rewrite (duration_lines_malformed _ _ row).
  - assert (row ∈ filter listed_abandoned rows) as Hf
      by (by apply list_elem_of_filter).
    rewrite (bool_decide_false (filter listed_abandoned rows = []))
      by (intros Hnil; rewrite Hnil in Hf; by apply elem_of_nil in Hf).
    rewrite andb_false_r. simpl.
    rewrite (duration_lines_malformed 1 (filter listed_abandoned rows) row)
      by done.
    case_bool_decide; [done|].
    by destruct (duration_lines_cases 1 (filter listed_completed rows))
      as [[lines ->]| ->].
Qed.

(** C6 (the code at the failing input).  For a Completed or Abandoned row
    of today's log whose duration field is not empty and does not parse as
    a number: the aggregation loop of [update_statistics] counts the row
    and leaves both duration totals as they were, whereas
    [get_today_summary] raises [ValueError] instead of listing the row. *)
Theorem malformed_duration_row b rows row w d :
  on_day w d →
  logs (fs w) !! today_log d = Some rows →
  row ∈ rows →
  listed_completed row ∨ listed_abandoned row →
  float_of_str (Duration row) = None →
  (∀ t, total_completed (tally_row t row) = total_completed t
        ∧ total_abandoned (tally_row t row) = total_abandoned t
        ∧ (length (completed_tasks (tally_row t row))
           + length (abandoned_tasks (tally_row t row))
           = S (length (completed_tasks t) + length (abandoned_tasks t)))%nat)
  ∧ get_today_summary b w = (Raise ValueError, tick2 w).
Proof.
  intros Hd Hl Hin Hlisted Hbad. split.
  - intros t. unfold tally_row, classify_row, add_duration. rewrite Hbad.
    destruct Hlisted as [[Hs Hdur]|[Hs Hdur]]; rewrite Hs; simpl;
      destruct (String.eqb_spec (Duration row) ""); try done; simpl;
      rewrite length_app; simpl; repeat split; lia.
  - rewrite (get_today_summary_run _ _ _ Hd), Hl.
    by rewrite (summary_of_malformed b rows row).
Qed.

(** *** [handle_command] *)

Lemma handle_pause s w :
  is_paused s = false →
  handle_command "p" s w =
  (Ok {| current_task := current_task s; task_start_time := task_start_time s;
         paused_time := Some (clock w (ticks w)); is_paused := true |},
   tick w).
Proof. intros Hp. unfold handle_command. simpl. by rewrite Hp. Qed.

Lemma handle_resume s paused w :
  is_paused s = true →
  paused_time s = Some paused →
  handle_command "p" s w =
  (Ok {| current_task := current_task s;
         task_start_time := (task_start_time s + (clock w (ticks w) - paused))%Z;
         paused_time := Some paused; is_paused := false |},
   tick w).
Proof.
  intros Hp Hpt. unfold handle_command. simpl. rewrite Hp.
  unfold bind, now. by rewrite Hpt.
Qed.

(** [c] passes [paused_time] through without looking at it. *)
Lemma handle_complete_paused_time pt s w :
  handle_command "c" (set_paused_time pt s) w =
  map_result (set_paused_time pt) (handle_command "c" s w).
Proof.
  unfold handle_command.
  change ("c" =? "p")%string with false.
  change ("c" =? "c")%string with true.
  cbn [set_paused_time current_task task_start_time is_paused paused_time].
  destruct (is_paused s) eqn:Hp; [done|]. cbn [negb andb].
  unfold bind.
  destruct (now w) as [[end_time|e] w1]; [|done].
  destruct (log_task _ _ _ _ w1) as [[[]|e] w2]; [|done].
  destruct (get_next_task w2) as [[next|e] w3]; [|done].
  destruct (now w3) as [[start|e] w4]; [|done].
  destruct (log_task _ _ _ _ w4) as [[[]|e] w5]; [|done].
  done.
Qed.

Lemma bind_ret {A} (m : M A) w : bind m ret w = m w.
Proof. unfold bind, ret. by destruct (m w) as [[a|e] w']. Qed.

(** What [c] does first on a running task: it appends the Completed row
    for the current clock reading; the rest is the prompt for the next
    task and its start. *)
Lemma handle_complete_run s w d :
  on_day w d →
  is_paused s = false →
  handle_command "c" s w =
  (next ← get_next_task;
   start ← now;
   log_task next start None "In Progress";;
   ret {| current_task := next; task_start_time := start;
          paused_time := paused_time s; is_paused := false |})
    (with_fs (set_logs <[today_log d :=
                default [] (logs (fs w) !! today_log d)
                ++ [new_row (current_task s) (task_start_time s)
                            (Some (clock w (ticks w))) "Completed"]]>)
             (tick2 (tick w))).
Proof.
  intros Hd Hp. unfold handle_command.
  change ("c" =? "p")%string with false.
  change ("c" =? "c")%string with true.
  rewrite Hp. cbn [negb andb].
  unfold bind at 1. unfold now at 1. unfold bind at 1.
  by rewrite (log_task_append _ _ _ _ _ d) by auto with focus.
Qed.

(** C4.  On a fixed day, pausing a running task at [p] and resuming it at
    [r] leaves the files alone and moves the start time from [s] to
    [s + (r - p)]; completing it afterwards gives the same world, hence the
    same day log and reported duration, as completing a task that was never
    paused and started at [s + (r - p)]; and what [c] then appends is the
    Completed row whose duration is the single subtraction
    (end - shifted start) / 60 s, before it prompts for the next task. *)
Theorem pause_resume_neutral w d task s pt :
  on_day w d →
  let p := clock w (ticks w) in
  let r := clock w (S (ticks w)) in
  let e := clock w (S (S (ticks w))) in
  let started start :=
    {| current_task := task; task_start_time := start;
       paused_time := pt; is_paused := false |} in
  run_keys ["p"; "p"] (started s) w
  = (Ok (set_paused_time (Some p) (started (s + (r - p))%Z)), tick2 w)
  ∧ run_keys ["p"; "p"; "c"] (started s) w
    = map_result (set_paused_time (Some p))
        (run_keys ["c"] (started (s + (r - p))%Z) (tick2 w))
  ∧ ∃ completed,
      Task completed = task
      ∧ Status completed = "Completed"
      ∧ Duration completed = duration_str (s + (r - p))%Z e
      ∧ run_keys ["p"; "p"; "c"] (started s) w
        = (next ← get_next_task;
           start ← now;
           log_task next start None "In Progress";;
           ret {| current_task := next; task_start_time := start;
                  paused_time := Some p; is_paused := false |})
            (with_fs (set_logs <[today_log d :=
                        default [] (logs (fs w) !! today_log d) ++ [completed]]>)
                     (tick2 (tick (tick2 w)))).
Proof.
  intros Hd p r e started.
  assert (run_keys ["p"; "p"] (started s) w
          = (Ok (set_paused_time (Some p) (started (s + (r - p))%Z)), tick2 w))
    as Hpp.
  { cbn [run_keys]. unfold bind at 1. rewrite handle_pause by done.
    unfold bind at 1. erewrite handle_resume by done. done. }
  assert (run_keys ["p"; "p"; "c"] (started s) w
          = handle_command "c"
              (set_paused_time (Some p) (started (s + (r - p))%Z)) (tick2 w))
    as Hppc.
  { cbn [run_keys] in *. unfold bind at 1. unfold bind at 1 in Hpp.
    destruct (handle_command "p" (started s) w) as [[s1|err] w1]; [|done].
    unfold bind at 1. unfold bind at 1 in Hpp.
    destruct (handle_command "p" s1 w1) as [[s2|err] w2]; [|done].
    injection Hpp as -> ->. apply bind_ret. }
  split; [done|]. split.
  - rewrite Hppc, handle_complete_paused_time. cbn [run_keys].
    by rewrite bind_ret.
  - exists (new_row task (s + (r - p))%Z (Some e) "Completed").
    split; [done|]. split; [done|]. split; [done|].
    rewrite Hppc. by rewrite (handle_complete_run _ _ d) by auto with focus.
Qed.

(** *** The loop of [main] *)

Lemma handle_ignored_when_paused cmd s w :
  is_paused s = true →
  cmd = "c" ∨ cmd = "x" →
  handle_command cmd s w = (Ok s, w).
Proof.
  intros Hp [-> | ->]; unfold handle_command; simpl; by rewrite Hp.
Qed.

Lemma process_command_resets key st s' w w' :
  str_lower key ∈ ["p"; "c"; "t"; "x"; "a"] →
  handle_command (str_lower key) (session st) w = (Ok s', w') →
  process_command key st w
  = (Ok {| session := s'; last_reminder_time := clock w' (ticks w') |}, tick w').
Proof.
  intros Hin Hh. unfold process_command.
  assert ((str_lower key =? "l")%string = false) as ->.
  { apply String.eqb_neq. intros Heq. rewrite Heq in Hin.
    by repeat (apply elem_of_cons in Hin as [?|Hin]; [done|]);
      apply elem_of_nil in Hin. }
  assert ((str_lower key =? "h")%string = false) as ->.
  { apply String.eqb_neq. intros Heq. rewrite Heq in Hin.
    by repeat (apply elem_of_cons in Hin as [?|Hin]; [done|]);
      apply elem_of_nil in Hin. }
  rewrite bool_decide_true by done.
  unfold bind. by rewrite Hh.
Qed.

(** C8 (amended).  While the task is paused, a [c] or [x] key changes
    neither the session (current task, start time, pause state) nor any
    file, but the iteration of the main loop that handles it still resets
    the reminder anchor to now; so does every [p], [c], [t], [x] or [a] key
    whose handler returns, whether or not it changed anything. *)
Theorem paused_complete_abandon_ignored key s anchor w :
  is_paused s = true →
  str_lower key = "c" ∨ str_lower key = "x" →
  key ≠ "" →
  handle_command (str_lower key) s w = (Ok s, w)
  ∧ loop_body (Some key) {| session := s; last_reminder_time := anchor |} w
    = (Ok {| session := s; last_reminder_time := clock w (ticks w) |}, tick w)
  ∧ ∀ key' st s' w1 w2,
      str_lower key' ∈ ["p"; "c"; "t"; "x"; "a"] →
      handle_command (str_lower key') (session st) w1 = (Ok s', w2) →
      process_command key' st w1
      = (Ok {| session := s'; last_reminder_time := clock w2 (ticks w2) |},
         tick w2).
Proof.
  intros Hp Hkey Hne.
  pose proof (handle_ignored_when_paused _ s w Hp Hkey) as Hh.
  split; [done|]. split; [|intros; by apply process_command_resets].
  unfold loop_body, bind, try_except_Exception.
  apply String.eqb_neq in Hne. rewrite Hne. cbn [negb].
  rewrite (process_command_resets key _ s w w); [..|done].
  - simpl. by rewrite Hp.
  - destruct Hkey as [-> | ->]; set_solver.
Qed.

End WithBuiltins.

End Props.

(** ** The properties on the sample worlds *)

Module Checks.
Import Py Store Focus Spec Props Decimal Samples.
#[local] Open Scope M_scope.

(** The sample worlds stay on 2026-11-04. *)
Lemma world_on_day rows lines : on_day (world rows lines) d0.
Proof. intros n _. vm_compute. reflexivity. Defined.

(** C1 on the log with two Abandoned rows for A: starting A rewrites both
    and appends nothing. *)
Lemma log_task_start_witness :
  let w := world rows_abandoned_twice [] in
  let r := log_task "A" t0 None "In Progress" w in
  r.1 = Ok tt
  ∧ logs (fs r.2) !! today_log d0
    = Some [ row "A" "08:00:00" "08:30:00" "30.00" "In Progress (Resumed)";
             row "B" "08:30:00" "09:00:00" "30.00" "Completed";
             row "A" "09:00:00" "09:10:00" "10.00" "In Progress (Resumed)" ].
Proof.
  split.
  - exact (proj1 (log_task_start_resumes_or_appends
                    "A" t0 _ d0 (world_on_day rows_abandoned_twice []))).
  - vm_compute. reflexivity.
Defined.



(** C3 at the failing input: a task completed at the time it started. *)
Lemma log_task_zero_duration_witness :
  let w' := (log_task "t" t0 (Some t0) "Completed" (world [] [])).2 in
  (∃ r, logs (fs w') !! today_log d0 = Some [r]
        ∧ Status r = "Completed" ∧ End_Time r ≠ "" ∧ Duration r = "")
  ∧ logs (fs w') !! today_log d0
    = Some [ row "t" "10:00:00" "10:00:00" "" "Completed" ].
Proof.
  split.
  - assert (float_bool (float_div (total_seconds 0) (float_of_int 60)) = false)
      as Hzero by reflexivity.
    destruct (log_task_zero_duration "t" t0 "Completed" (world [] []) d0
                (world_on_day [] []) (or_introl eq_refl) Hzero)
      as (r & Hrun & _ & Hs & He & Hd).
    exists r. rewrite Hrun. split; [reflexivity|]. by repeat split.
  - vm_compute. reflexivity.
Defined.

(** The clock of the pause scenario stays on 2026-11-04. *)
Lemma world_pause_on_day : on_day world_pause d0.
Proof. intros [|[|n]] _; vm_compute; reflexivity. Defined.

(** C4 on the scenario "pause excludes time": 2.00 minutes are logged, not
    4.00, and the start time that is logged is the shifted one. *)
Lemma pause_resume_neutral_witness :
  let r := run_keys ["p"; "p"; "c"] (session_running "deep work" t0) world_pause in
  r = map_result (set_paused_time (Some (t0 + seconds 60)%Z))
        (run_keys ["c"] (session_running "deep work" (t0 + seconds 120)%Z)
                  (tick2 world_pause))
  ∧ logs (fs r.2) !! today_log d0
    = Some [ row "deep work" "10:02:00" "10:04:00" "2.00" "Completed";
             row "next" "10:04:00" "" "" "In Progress" ].
Proof.
  split.
  - exact (proj1 (proj2 (pause_resume_neutral world_pause d0 "deep work" t0
                           None world_pause_on_day))).
  - vm_compute. reflexivity.
Defined.

(** C5 on the log with one completed and two abandoned tasks. *)
Lemma update_statistics_idempotent_witness :
  let w1 := (update_statistics (world rows_abandoned_twice [])).2 in
  fs (update_statistics w1).2 = fs w1
  ∧ statistics (fs w1)
    = Some [ STATS_HEADER;
             ["2026-11-04"; "1"; "30.00"; "30.00"; "2"; "40.00"; "20.00"; "33.3"] ].
Proof.
  split.
  - exact (update_statistics_idempotent (world rows_abandoned_twice []) eq_refl).
  - vm_compute. reflexivity.
Defined.

(** C6 at the failing input: the duration [abc] is counted without its
    minutes by the aggregation, and breaks the summary. *)
Lemma malformed_duration_row_witness :
  let w := world rows_malformed [] in
  (get_today_summary true w).1 = Raise ValueError
  ∧ statistics (fs (update_statistics w).2)
    = Some [ STATS_HEADER;
             ["2026-11-04"; "1"; "0.00"; "0.00"; "0"; "0.00"; "0.00"; "100.0"] ].
Proof.
  split.
  - assert (row "A" "08:00:00" "08:30:00" "abc" "Completed" ∈ rows_malformed)
      as Hin by (left).
    assert (logs (fs (world rows_malformed [])) !! today_log d0
            = Some rows_malformed) as Hl by (vm_compute; reflexivity).
    assert (listed_completed (row "A" "08:00:00" "08:30:00" "abc" "Completed"))
      as Hc by (split; [reflexivity|discriminate]).
    assert (float_of_str
              (Duration (row "A" "08:00:00" "08:30:00" "abc" "Completed"))
            = None) as Hbad by reflexivity.
    destruct (malformed_duration_row true rows_malformed _ _ d0
                (world_on_day rows_malformed []) Hl Hin (or_introl Hc) Hbad)
      as [_ Hsum].
    by rewrite Hsum.
  - vm_compute. reflexivity.
Defined.

(** C7 on the log with two Abandoned rows for A: one row is returned. *)
Lemma get_abandoned_tasks_witness :
  let r := get_abandoned_tasks (world rows_abandoned_twice []) in
  (∃ tasks, r.1 = Ok tasks ∧ (length tasks ≤ 10)%nat ∧ NoDup (Task <$> tasks))
  ∧ r.1 = Ok [ row "A" "08:00:00" "08:30:00" "30.00" "Abandoned" ].
Proof.
  split.
  - destruct (get_abandoned_tasks_spec (world rows_abandoned_twice []) d0
                (world_on_day rows_abandoned_twice []))
      as (tasks & Hrun & Hlen & _ & Hnd & _).
    exists tasks. rewrite Hrun. by repeat split.
  - vm_compute. reflexivity.
Defined.

(** C8 (counterexample).  A [c] key while paused changes neither the
    session nor the files, and yet the reminder anchor moves to now. *)
Lemma ignored_key_resets_anchor :
  let st := {| session := session_paused "A" t0 t0; last_reminder_time := 0%Z |} in
  let w := world [] [] in
  let r := loop_body (Some "c") st w in
  r.1 = Ok {| session := session st; last_reminder_time := t0 |}
  ∧ fs r.2 = fs w
  ∧ t0 ≠ last_reminder_time st.
Proof.
  split; [|split].
  - vm_compute. reflexivity.
  - reflexivity.
  - vm_compute. discriminate.
Qed.

(** C8 (amended) for the key [X] on a paused session. *)
Lemma paused_complete_abandon_ignored_witness :
  let s := session_paused "A" t0 t0 in
  let w := world rows_abandoned_twice [] in
  handle_command "x" s w = (Ok s, w)
  ∧ loop_body (Some "X") {| session := s; last_reminder_time := 0%Z |} w
    = (Ok {| session := s; last_reminder_time := t0 |}, tick w).
Proof.
  assert (str_lower "X" = "x") as Hkey by reflexivity.
  assert ("X" ≠ "") as Hne by discriminate.
  destruct (paused_complete_abandon_ignored
              "X" (session_paused "A" t0 t0) 0%Z (world rows_abandoned_twice [])
              eq_refl (or_intror Hkey) Hne)
    as (Hh & Hl & _).
  split; [exact Hh|exact Hl].
Defined.

(** C9 on the log with three rows. *)
Lemma clear_today_tasks_witness :
  let w' := (clear_today_tasks (world rows_abandoned_twice [])).2 in
  logs (fs w') !! backup_log d0 = Some rows_abandoned_twice
  ∧ logs (fs w') !! today_log d0 = Some []
  ∧ records <$> logs (fs (append_all (today_log d0) rows_unlisted w')) !! today_log d0
    = Some (DAY_HEADER :: map record_of rows_unlisted)
  ∧ backup_log d0 = ("2026_11", "tasks_2026_11_04.backup").
Proof.
  assert (logs (fs (world rows_abandoned_twice [])) !! today_log d0
          = Some rows_abandoned_twice) as Hl by (vm_compute; reflexivity).
  destruct (clear_today_tasks_then_append _ d0 _
              (world_on_day rows_abandoned_twice []) Hl)
    as (Hb & Ht & _ & Happ & _).
  split; [exact Hb|]. split; [exact Ht|]. split; [apply Happ|].
  vm_compute. reflexivity.
Defined.


(** The scenario "abandon then resume": A is running, [x] abandons it and
    starts B, [a] with selection 1 abandons B and resumes A.  Both rows of
    A, the start row and the Abandoned row, end up In Progress (Resumed),
    and no row is appended for the resumed A. *)
Example abandon_then_resume :
  let w := world_running [ row "A" "09:59:30" "" "" "In Progress" ] ["B"; "1"] in
  let r := run_keys ["x"; "a"] (session_running "A" (t0 - seconds 30)%Z) w in
  current_task <$> (match r.1 with Ok s => Some s | Raise _ => None end) = Some "A"
  ∧ logs (fs r.2) !! today_log d0
    = Some [ row "A" "09:59:30" "" "" "In Progress (Resumed)";
             row "A" "09:59:30" "10:00:00" "0.50" "In Progress (Resumed)";
             row "B" "10:00:03" "" "" "In Progress";
             row "B" "10:00:03" "10:00:07" "0.07" "Abandoned" ].
Proof. vm_compute. split; reflexivity. Qed.

End Checks.
